(** * archctl: the validation orchestrator and its command-line front end

    A shallow embedding of [src/validator.mjs] (the [validateManifest]
    orchestrator: eager input checks, DocHub set-up, manifest loading, the
    validator engine with its completion callback and safety timer, and the
    aggregation into a report) and of the action of [src/cli.mjs] (the exit
    code mapping).

    DocHub itself (parser, cache, entities, datasets, rule evaluator), Node's
    [fs], [path] and [process] are collaborators outside the repository: they
    appear as the fields of a [World] record that scripts what each call
    answers.  Every call the orchestrator makes on them is recorded, in
    order, in a trace of [Effect]s. *)

From Stdlib Require Import String Ascii List Bool Arith NArith Lia DecimalString.
Import ListNotations.
Open Scope string_scope.
Open Scope list_scope.
Open Scope nat_scope.

Set Implicit Arguments.

(* ===================================================================== *)
(** ** Data model *)
(* ===================================================================== *)

(** One issue of a rule result: [{uid, title, location, description,
    correction, cause}]; every field may be absent. *)
Record Item := mkItem {
  uid : option string;
  item_title : option string;
  location : option string;
  description : option string;
  correction : option string;
  cause : option string
}.

(** An entry of the report's [problems] array: a rule result handed to the
    completion callback, a load-time entry of [cache.errors], or the
    synthetic entry of the catch branch.  They are plain JS objects; a field
    that is [undefined] is [None].  [items = None] stands for an absent (or
    otherwise falsy) [items]; an array, even empty, is [Some]. *)
Record Problem := mkProblem {
  id : option string;
  title : option string;
  items : option (list Item);
  error : option string;
  stack : option string
}.

Record ManifestInfo := mkManifestInfo {
  loaded : bool;
  path : string;
  workspace : string
}.

Record Stats := mkStats {
  totalIssues : nat;
  loadingErrors : nat;
  validationErrors : nat
}.

(** The object returned by [validateManifest]. *)
Record Report := mkReport {
  success : bool;
  manifest : ManifestInfo;
  problems : list Problem;
  stats : Stats
}.

(** A rule declared under [rules.validators.<id>]. *)
Record RuleDescriptor := mkRule {
  rule_title : option string;
  rule_source : option string
}.

Record Rules := mkRules {
  validators : option (list (string * RuleDescriptor))
}.

(** The merged manifest as far as the orchestrator reads it. *)
Record Manifest := mkManifest {
  rules : option Rules;
  functions : option (list (string * string))
}.

(** A value raised by [throw] or carried by a rejected promise.  JavaScript
    throws any value: [ThrownNullish] is [null] or [undefined] (for instance
    a promise rejected without a reason); on every other value the property
    reads [.message] and [.stack] succeed and may give [undefined].  Of a
    [stack] only the head line is kept: the frames below it are the
    engine's. *)
Inductive Thrown :=
| ThrownNullish
| ThrownValue (message stack : option string).

(** [new Error(msg)] *)
Definition new_Error (msg : string) : Thrown :=
  ThrownValue (Some msg) (Some ("Error: " ++ msg)%string).

(** The engine's own [TypeError] for a property read on [undefined] (on
    [null] the engine's message says so). *)
Definition new_TypeError (msg : string) : Thrown :=
  ThrownValue (Some msg) (Some ("TypeError: " ++ msg)%string).

(** How a promise the orchestrator awaits fails to be fulfilled: it is
    rejected with a value (an awaited call that throws rejects too), or it
    stays pending for ever. *)
Inductive Failure :=
| Throws (e : Thrown)
| NeverSettles.

(** Truthiness of a string-valued property: [undefined] and the empty
    string are falsy. *)
Definition truthy (value : option string) : bool :=
  match value with
  | Some (String _ _) => true
  | _ => false
  end.

(** Milliseconds on the event loop's clock. *)
Abbreviation Time := N (only parsing).

(** What the verbose console output says, with its interpolated values. *)
Inductive LogLine :=
| LogBuiltinMetamodel
| LogUsingDocHubFrom (dochubPath : string)
| LogWorkspace (workspaceDir : string)
| LogRootManifest (manifestPath : string)
| LogFoundValidators (validatorCount : nat)
| LogNoValidators
| LogValidatorCompleted (validatorId : option string) (issues : nat)
| LogTimeoutWarning (completedCount validatorCount : nat)
| LogValidationComplete (realIssues : nat).

Inductive LoadStep :=
| StepClean | StepStartLoad | StepImportRoot
| StepCheckAwaitedPackages | StepCheckLoaded | StepStopLoad.

Inductive DocHubModule :=
| ModParser | ModCache | ModValidators | ModDatasets
| ModEntities | ModJsonataDriver | ModJsonataFunctions.

(** The calls the orchestrator makes on its collaborators. *)
Inductive Effect :=
| ConsoleLog (line : LogLine)
| SetGlobals (resolvedWorkspace : string)
| SetEnvRootManifest (value : string)
| ImportModule (dochubPath : string) (m : DocHubModule)
| ConfigureParser
| CacheErrorClear
| ParserCall (step : LoadStep)
| EntitiesCall
| JsonataFunctionsCall
| SetCustomFunctions
| DatasetsCall
| ValidatorsCall
| SetTimeout (delay : Time).

(* ===================================================================== *)
(** ** Completions and the effect monad *)
(* ===================================================================== *)

(** How an evaluation ends: with a value, with a thrown value, or (for an
    awaited promise that is never settled) not at all. *)
Inductive Completion (A : Type) :=
| Normal (a : A)
| Abrupt (e : Thrown)
| Unsettled.

Arguments Normal {A} a.
Arguments Abrupt {A} e.
Arguments Unsettled {A}.

(** A computation that extends the trace of effects and completes. *)
Definition Eff (A : Type) := list Effect -> Completion A * list Effect.

Definition ret {A} (a : A) : Eff A := fun tr => (Normal a, tr).

Definition bind {A B} (m : Eff A) (k : A -> Eff B) : Eff B :=
  fun tr =>
    match m tr with
    | (Normal a, tr') => k a tr'
    | (Abrupt e, tr') => (Abrupt e, tr')
    | (Unsettled, tr') => (Unsettled, tr')
    end.

Definition throw {A} (e : Thrown) : Eff A := fun tr => (Abrupt e, tr).

Definition emit (ev : Effect) : Eff unit := fun tr => (Normal tt, tr ++ [ev]).

Definition emit_all (evs : list Effect) : Eff unit := fun tr => (Normal tt, tr ++ evs).

(** [try { body } catch (error) { handler }] *)
Definition try_catch {A} (body : Eff A) (handler : Thrown -> Eff A) : Eff A :=
  fun tr =>
    match body tr with
    | (Abrupt e, tr') => handler e tr'
    | other => other
    end.

Definition lift {A} (c : Completion A) : Eff A := fun tr => (c, tr).

(** A synchronous call on a collaborator: record it, then return or throw
    as the world scripts. *)
Definition call (ev : Effect) (answer : option Thrown) : Eff unit :=
  bind (emit ev) (fun _ => match answer with Some e => throw e | None => ret tt end).

(** [await] on a promise that is rejected or never settled: the [async]
    function throws the rejection value at the [await], or never resumes. *)
Definition fail {A} (f : Failure) : Eff A :=
  match f with
  | Throws e => throw e
  | NeverSettles => lift Unsettled
  end.

(** [await collaborator(...)]: record the call, then resume, throw or wait
    for ever as the world scripts. *)
Definition await_call (ev : Effect) (answer : option Failure) : Eff unit :=
  bind (emit ev) (fun _ => match answer with Some f => fail f | None => ret tt end).

(** [if (verbose) console.log(...)] *)
Definition log_if (verbose : bool) (line : LogLine) : Eff unit :=
  if verbose then emit (ConsoleLog line) else ret tt.

Declare Scope eff_scope.
Delimit Scope eff_scope with eff.
Notation "x <- m ;; k" := (bind m (fun x => k))
  (at level 61, m at next level, right associativity) : eff_scope.
Notation "m ;;; k" := (bind m (fun _ => k))
  (at level 61, right associativity) : eff_scope.
Open Scope eff_scope.

(* ===================================================================== *)
(** ** The validator engine *)
(* ===================================================================== *)

(** The rule evaluator is handed two callbacks and reports each rule on one
    of them. *)
Inductive Channel := SuccessCallback | RejectCallback.

Record CallbackCall := mkCall {
  channel : Channel;
  payload : Problem
}.

(** A later turn of the event loop on which the evaluator invokes
    callbacks: an uninterrupted run of evaluator code (nothing awaiting
    resumes inside it).  It carries the delay since the previous turn
    (since the evaluator's call, for the first one), so the clock never runs
    backwards.  [wins_tie] matters only for a turn due at the very instant
    the safety timer is due, and says which of the two the event loop runs
    first: the turn ([true]) or the timer ([false]). *)
Record Turn := mkTurn {
  turn_gap : Time;
  wins_tie : bool;
  turn_calls : list CallbackCall
}.

(** What the evaluator does once it is invoked: the callbacks it invokes
    before its call returns, whether that call throws, and its later
    turns. *)
Record EvaluatorRun := mkRun {
  launch_calls : list CallbackCall;
  launch_throw : option Thrown;
  later_turns : list Turn
}.

Inductive PromiseState :=
| Pending
| Fulfilled
| Rejected (reason : Thrown).

(** The variables the promise executor and its closures share. *)
Record EngineState := mkEngine {
  validatorResults : list Problem;
  completedCount : nat;
  promise : PromiseState;
  timer : option Time;
  emitted : list Effect
}.

Definition engine_init : EngineState :=
  mkEngine [] 0 Pending None [].

(** [resolve()] and the rejection of the promise: both do nothing once the
    promise is settled. *)
Definition resolve (st : EngineState) : EngineState :=
  match promise st with
  | Pending => mkEngine (validatorResults st) (completedCount st) Fulfilled (timer st) (emitted st)
  | _ => st
  end.

Definition reject (e : Thrown) (st : EngineState) : EngineState :=
  match promise st with
  | Pending => mkEngine (validatorResults st) (completedCount st) (Rejected e) (timer st) (emitted st)
  | _ => st
  end.

Definition engine_emit (ev : Effect) (st : EngineState) : EngineState :=
  mkEngine (validatorResults st) (completedCount st) (promise st) (timer st) (emitted st ++ [ev]).

Definition engine_log (verbose : bool) (line : LogLine) (st : EngineState) : EngineState :=
  if verbose then engine_emit (ConsoleLog line) st else st.

(** [validator.items?.length || 0] *)
Definition issues_found (validator : Problem) : nat :=
  match items validator with
  | Some l => length l
  | None => 0
  end.

(** The completion callback of lines 224-235. *)
Definition onValidatorComplete (verbose : bool) (validatorCount : nat)
    (validator : Problem) (st : EngineState) : EngineState :=
  let st1 := mkEngine (validatorResults st ++ [validator]) (S (completedCount st))
                      (promise st) (timer st) (emitted st) in
  let st2 := engine_log verbose (LogValidatorCompleted (id validator) (issues_found validator)) st1 in
  if validatorCount <=? completedCount st2 then resolve st2 else st2.

(** The evaluator invoking one of the two callbacks it was given. *)
Definition invoke (success reject_cb : Problem -> EngineState -> EngineState)
    (c : CallbackCall) (st : EngineState) : EngineState :=
  match channel c with
  | SuccessCallback => success (payload c) st
  | RejectCallback => reject_cb (payload c) st
  end.

(** [validators(datasets, manifest, success, reject)] as far as the engine
    sees it: callbacks invoked in order. *)
Definition deliver (success reject_cb : Problem -> EngineState -> EngineState)
    (calls : list CallbackCall) (st : EngineState) : EngineState :=
  fold_left (fun s c => invoke success reject_cb c s) calls st.

Definition SAFETY_TIMEOUT : Time := 10000%N.

(** [setTimeout(cb, delay)] called when the clock shows [now]. *)
Definition setTimeout (now delay : Time) (st : EngineState) : EngineState :=
  mkEngine (validatorResults st) (completedCount st) (promise st)
           (Some (now + delay)%N) (emitted st ++ [SetTimeout delay]).

(** The timer's callback of lines 245-252. *)
Definition onTimeout (verbose : bool) (validatorCount : nat) (st : EngineState) : EngineState :=
  if completedCount st <? validatorCount then
    resolve (engine_log verbose (LogTimeoutWarning (completedCount st) validatorCount) st)
  else st.

(** The promise executor of lines 215-253, run when the clock shows [now].
    An executor that throws rejects the promise, which does nothing if the
    promise is already resolved. *)
Definition executor (verbose : bool) (validatorCount : nat) (run : EvaluatorRun)
    (now : Time) (st : EngineState) : EngineState :=
  if validatorCount =? 0 then
    resolve (engine_log verbose LogNoValidators st)
  else
    let cb := onValidatorComplete verbose validatorCount in
    let st1 := deliver cb cb (launch_calls run) (engine_emit ValidatorsCall st) in
    match launch_throw run with
    | Some e => reject e st1
    | None => setTimeout now SAFETY_TIMEOUT st1
    end.

(** A task of the event loop. *)
Inductive Task :=
| TurnTask (calls : list CallbackCall)
| TimerTask.

(** Whether the safety timer, due at [d], runs before a turn due at [t].
    It does when it is due earlier (Node never fires a timer early).  When
    both are due at the same instant the turn may still come first:
    [validators(...)] is called on line 237, before [setTimeout] on line
    245, so a timer of 10000 ms that the evaluator armed during its call is
    the older of the two, and Node runs timers of the same delay in the
    order in which they were armed.  A turn that is woken otherwise at that
    instant (input or output, a timer armed later) usually finds the safety
    timer ahead of it.  The turn says which. *)
Definition timer_first (d t : Time) (turn : Turn) : bool :=
  (d <? t)%N || ((d =? t)%N && negb (wins_tie turn)).

(** The order in which the event loop runs the evaluator's later turns and
    the timer. *)
Fixpoint schedule (now : Time) (due : option Time) (turns : list Turn)
    : list (Time * Task) :=
  match turns with
  | [] =>
      match due with
      | Some d => [(d, TimerTask)]
      | None => []
      end
  | turn :: rest =>
      let t := (now + turn_gap turn)%N in
      match due with
      | Some d =>
          if timer_first d t turn
          then (d, TimerTask) :: (t, TurnTask (turn_calls turn)) :: schedule t None rest
          else (t, TurnTask (turn_calls turn)) :: schedule t due rest
      | None => (t, TurnTask (turn_calls turn)) :: schedule t None rest
      end
  end.

Definition run_task (verbose : bool) (validatorCount : nat) (task : Task)
    (st : EngineState) : EngineState :=
  match task with
  | TurnTask calls =>
      let cb := onValidatorComplete verbose validatorCount in
      deliver cb cb calls st
  | TimerTask => onTimeout verbose validatorCount st
  end.

Definition settled (st : EngineState) : bool :=
  match promise st with
  | Pending => false
  | _ => true
  end.

(** [await validationPromise]: the event loop runs its tasks in order until
    the promise is settled; the awaiting function resumes after the task
    that settled it.  Gives the clock and the engine's variables at that
    point; with the promise still [Pending] when nothing is left to run, the
    function never resumes. *)
Fixpoint await (verbose : bool) (validatorCount : nat) (now : Time)
    (queue : list (Time * Task)) (st : EngineState) : Time * EngineState :=
  if settled st then (now, st)
  else
    match queue with
    | [] => (now, st)
    | (t, task) :: rest => await verbose validatorCount t rest (run_task verbose validatorCount task st)
    end.

(** Lines 215-256: build the promise, then wait for it. *)
Definition validationPromise (verbose : bool) (validatorCount : nat)
    (run : EvaluatorRun) (now : Time) : Time * EngineState :=
  let st := executor verbose validatorCount run now engine_init in
  await verbose validatorCount now (schedule now (timer st) (later_turns run)) st.

(* ===================================================================== *)
(** ** The orchestrator *)
(* ===================================================================== *)

(** The argument of [validateManifest]; an absent property takes its
    destructuring default. *)
Record Options := mkOptions {
  opt_workspace : option string;
  opt_rootManifest : option string;
  opt_verbose : option bool
}.

(** What the collaborators answer.  For a synchronous call, [None] means
    that it returns and [Some e] that it throws [e].  For an awaited one
    (the dynamic imports and the parser's methods), [None] means that the
    promise is fulfilled, [Some (Throws e)] that it is rejected with [e]
    and [Some NeverSettles] that it stays pending.  [parser_manifest] and
    [cache_errors] are [manifestParser.manifest] and [cache.errors] as the
    orchestrator reads them, after loading and entity processing;
    [cache_errors] lists the own properties of the object in the order
    [Object.keys] enumerates them. *)
Record World := mkWorld {
  cwd : string;
  dirname : string;
  path_resolve : list string -> string;
  existsSync : string -> bool;
  env_root_manifest : option string;
  import_module : string -> DocHubModule -> option Failure;
  errorClear : option Thrown;
  parser_step : LoadStep -> option Failure;
  parser_manifest : option Manifest;
  entities : option Thrown;
  cache_errors : option (list (string * Problem));
  jsonataFunctions : option Thrown;
  datasetsHelper : option Thrown;
  evaluator : EvaluatorRun;
  clock : Time
}.

Definition default {A} (d : A) (o : option A) : A :=
  match o with
  | Some a => a
  | None => d
  end.

Definition nl : string := String (ascii_of_nat 10) EmptyString.

(** [initializeDocHubEnvironment(workspaceDir)] *)
Definition initializeDocHubEnvironment (w : World) (workspaceDir : string) : Eff unit :=
  let resolvedWorkspace := path_resolve w [workspaceDir] in
  emit (SetGlobals resolvedWorkspace) ;;;
  match env_root_manifest w with
  | None | Some EmptyString => emit (SetEnvRootManifest "dochub.yaml")
  | Some _ => ret tt
  end.

Definition possiblePaths (w : World) : list string :=
  [ path_resolve w [dirname w; "../dochub"];
    path_resolve w [dirname w; "../node_modules/dochub"];
    path_resolve w [dirname w; "../../DocHub"] ].

Definition DOCHUB_NOT_FOUND : string :=
  ("DocHub not found. Please ensure DocHub is available via:" ++ nl
   ++ "  - Git submodule: git submodule update --init --recursive" ++ nl
   ++ "  - Sibling directory: ../DocHub" ++ nl
   ++ "  - Symlink: ln -s /path/to/DocHub dochub")%string.

(** [getDocHubPath()] *)
Definition getDocHubPath (w : World) : Eff string :=
  match find (existsSync w) (possiblePaths w) with
  | Some dochubPath => ret dochubPath
  | None => throw (new_Error DOCHUB_NOT_FOUND)
  end.

(** The dynamic imports of lines 124-143, in order. *)
Definition imported_modules : list DocHubModule :=
  [ModParser; ModCache; ModValidators; ModDatasets; ModEntities;
   ModJsonataDriver; ModJsonataFunctions].

Fixpoint import_all (w : World) (dochubPath : string) (ms : list DocHubModule) : Eff unit :=
  match ms with
  | [] => ret tt
  | m :: rest =>
      await_call (ImportModule dochubPath m) (import_module w dochubPath m) ;;;
      import_all w dochubPath rest
  end.

(** The awaited parser calls of lines 175-180, in order. *)
Definition load_steps : list LoadStep :=
  [StepClean; StepStartLoad; StepImportRoot; StepCheckAwaitedPackages;
   StepCheckLoaded; StepStopLoad].

Fixpoint run_load (w : World) (steps : list LoadStep) : Eff unit :=
  match steps with
  | [] => ret tt
  | s :: rest => await_call (ParserCall s) (parser_step w s) ;;; run_load w rest
  end.

(** [Object.keys(cache.errors || {}).map((key) => cache.errors[key]) || []] *)
Definition collect_errors (errors : option (list (string * Problem))) : list Problem :=
  match errors with
  | Some entries => map snd entries
  | None => []
  end.

(** [Object.keys(manifest?.rules?.validators || {}).length] *)
Definition count_validators (m : option Manifest) : nat :=
  match m with
  | Some m' =>
      match rules m' with
      | Some r =>
          match validators r with
          | Some vs => length vs
          | None => 0
          end
      | None => 0
      end
  | None => 0
  end.

(** [manifest.functions || {}]: the read throws on a nullish manifest. *)
Definition manifest_functions (m : option Manifest) : Eff (list (string * string)) :=
  match m with
  | Some m' => ret (default [] (functions m'))
  | None => throw (new_TypeError "Cannot read properties of undefined (reading 'functions')")
  end.

Definition DIAGNOSTIC_TAG : string := "$error".

(** The filter predicate of line 263:
    [v.items && v.items.length > 0 && !v.id.startsWith('$error')].
    The last conjunct is reached only for a result with items, and throws
    when that result has no [id]. *)
Definition is_real_issue (v : Problem) : Completion bool :=
  match items v with
  | None => Normal false
  | Some l =>
      if 0 <? length l then
        match id v with
        | Some s => Normal (negb (String.prefix DIAGNOSTIC_TAG s))
        | None => Abrupt (new_TypeError "Cannot read properties of undefined (reading 'startsWith')")
        end
      else Normal false
  end.

(** [validatorResults.filter(v => ...)] *)
Fixpoint filter_real (vs : list Problem) : Completion (list Problem) :=
  match vs with
  | [] => Normal []
  | v :: rest =>
      match is_real_issue v with
      | Normal b =>
          match filter_real rest with
          | Normal kept => Normal (if b then v :: kept else kept)
          | other => other
          end
      | Abrupt e => Abrupt e
      | Unsettled => Unsettled
      end
  end.

(** Lines 206-256 inside the orchestrator: run the engine, emit what it
    emitted, and resume with [validatorResults] once the promise is
    settled. *)
Definition run_validators (verbose : bool) (validatorCount : nat) (w : World)
    : Eff (list Problem) :=
  let st := snd (validationPromise verbose validatorCount (evaluator w) (clock w)) in
  emit_all (emitted st) ;;;
  match promise st with
  | Fulfilled => ret (validatorResults st)
  | Rejected e => throw e
  | Pending => lift Unsettled
  end.

(** The [try] block of lines 174-283. *)
Definition try_body (verbose : bool) (w : World) (workspaceDir manifestPath : string)
    : Eff Report :=
  run_load w load_steps ;;;
  let manifest := parser_manifest w in
  call EntitiesCall (entities w) ;;;
  let problems := collect_errors (cache_errors w) in
  _ <- manifest_functions manifest ;;
  call JsonataFunctionsCall (jsonataFunctions w) ;;;
  emit SetCustomFunctions ;;;
  call DatasetsCall (datasetsHelper w) ;;;
  let validatorCount := count_validators manifest in
  log_if verbose (LogFoundValidators validatorCount) ;;;
  validatorResults <- run_validators verbose validatorCount w ;;
  let allProblems := problems ++ validatorResults in
  realValidationIssues <- lift (filter_real validatorResults) ;;
  log_if verbose (LogValidationComplete (length realValidationIssues)) ;;;
  ret (mkReport (length realValidationIssues =? 0)
                (mkManifestInfo true manifestPath workspaceDir)
                allProblems
                (mkStats (length allProblems) (length problems)
                         (length realValidationIssues))).

(** The [catch] block of lines 285-306.  Reading [error.message] throws a
    [TypeError] when the caught value is [null] or [undefined]. *)
Definition catch_block (verbose : bool) (workspaceDir manifestPath : string)
    (caught : Thrown) : Eff Report :=
  match caught with
  | ThrownValue message stk =>
      ret (mkReport false
                    (mkManifestInfo false manifestPath workspaceDir)
                    [mkProblem (Some "critical-error") (Some "Critical Error") None
                               message (if verbose then stk else None)]
                    (mkStats 1 1 0))
  | ThrownNullish =>
      throw (new_TypeError "Cannot read properties of undefined (reading 'message')")
  end.

(** Lines 107-171: everything between the eager checks and the [try]. *)
Definition prepare_session (verbose : bool) (w : World)
    (rootManifest workspaceDir manifestPath : string) : Eff unit :=
  log_if verbose LogBuiltinMetamodel ;;;
  initializeDocHubEnvironment w workspaceDir ;;;
  emit (SetEnvRootManifest rootManifest) ;;;
  dochubPath <- getDocHubPath w ;;
  log_if verbose (LogUsingDocHubFrom dochubPath) ;;;
  log_if verbose (LogWorkspace workspaceDir) ;;;
  log_if verbose (LogRootManifest manifestPath) ;;;
  import_all w dochubPath imported_modules ;;;
  emit ConfigureParser ;;;
  call CacheErrorClear (errorClear w).

Definition workspaceDir_of (options : Options) (w : World) : string :=
  path_resolve w [default (cwd w) (opt_workspace options)].

Definition manifestPath_of (options : Options) (w : World) : string :=
  path_resolve w [workspaceDir_of options w; default "dochub.yaml" (opt_rootManifest options)].

(** [validateManifest(options)].  The function is [async]: an [Abrupt]
    completion is the rejection of the promise it returns. *)
Definition validateManifest (options : Options) (w : World) : Eff Report :=
  let rootManifest := default "dochub.yaml" (opt_rootManifest options) in
  let verbose := default false (opt_verbose options) in
  let workspaceDir := workspaceDir_of options w in
  let manifestPath := manifestPath_of options w in
  if negb (existsSync w workspaceDir) then
    throw (new_Error ("Workspace directory not found: " ++ workspaceDir)%string)
  else if negb (existsSync w manifestPath) then
    throw (new_Error ("Root manifest not found: " ++ manifestPath)%string)
  else
    prepare_session verbose w rootManifest workspaceDir manifestPath ;;;
    try_catch (try_body verbose w workspaceDir manifestPath)
              (catch_block verbose workspaceDir manifestPath).

(** A run from an empty trace. *)
Definition run_validateManifest (options : Options) (w : World)
    : Completion Report * list Effect :=
  validateManifest options w [].

(* ===================================================================== *)
(** ** The command-line action *)
(* ===================================================================== *)

(** The options commander hands to the action; each has a default, except
    [output]. *)
Record CliOptions := mkCliOptions {
  cli_workspace : string;
  cli_root : string;
  cli_format : string;
  cli_color : bool;
  cli_verbose : bool;
  cli_pretty : bool;
  cli_output : option string
}.

(** What the action's collaborators answer: the world of the orchestrator,
    the text [format] renders for a report, and whether [fs.writeFileSync]
    throws. *)
Record Host := mkHost {
  world : World;
  format : Report -> string -> bool -> bool -> bool -> string;
  writeFileSync : option Thrown
}.

(** What the action does besides calling the orchestrator. *)
Inductive CliEffect :=
| Orchestrator (ev : Effect)
| ConsolePrint (text : string)
| ConsoleError (text : string)
| WriteFile (file output : string).

Definition dq : string := String (ascii_of_nat 34) EmptyString.

Definition lower_ascii (c : ascii) : ascii :=
  let n := nat_of_ascii c in
  if (65 <=? n) && (n <=? 90) then ascii_of_nat (n + 32) else c.

(** [String.prototype.toLowerCase] on ASCII text. *)
Fixpoint toLowerCase (s : string) : string :=
  match s with
  | EmptyString => EmptyString
  | String c rest => String (lower_ascii c) (toLowerCase rest)
  end.

(** [['text', 'json'].includes(options.format.toLowerCase())] *)
Definition known_format (f : string) : bool :=
  existsb (String.eqb (toLowerCase f)) ["text"; "json"].

(** How the action ends: [process.exit(code)], or a value thrown out of the
    action's own [catch] block (an unhandled rejection), or never. *)
Definition CliResult := (Completion nat * list CliEffect)%type.

(** [console.error('Fatal error:', error.message)] and the exit of lines
    109-115.  While the console is silenced the message goes nowhere. *)
Definition fatal (silenced verbose : bool) (caught : Thrown) (tr : list CliEffect)
    : CliResult :=
  match caught with
  | ThrownValue message stk =>
      (Normal 2,
       if silenced then tr
       else tr ++ [ConsoleError ("Fatal error: " ++ default "undefined" message)%string]
               ++ (if verbose then [ConsoleError (default "undefined" stk)] else []))
  | ThrownNullish =>
      (Abrupt (new_TypeError "Cannot read properties of undefined (reading 'message')"), tr)
  end.

(** Lines 100-107. *)
Definition exit_code (result : Report) : nat :=
  if success result then 0
  else
    let hasLoadingErrors := 0 <? loadingErrors (stats result) in
    if hasLoadingErrors then 2 else 1.

(** Lines 83-107: render, write or print, exit.  [if (options.output)]
    tests truthiness: without the option, and with an empty file name, the
    output is printed. *)
Definition emit_and_exit (o : CliOptions) (h : Host) (result : Report)
    (tr : list CliEffect) : CliResult :=
  let output := format h result (cli_format o) (cli_color o) (cli_verbose o) (cli_pretty o) in
  if truthy (cli_output o) then
    let file := default EmptyString (cli_output o) in
    match writeFileSync h with
    | Some e => fatal false (cli_verbose o) e (tr ++ [WriteFile file output])
    | None =>
        (Normal (exit_code result),
         tr ++ [WriteFile file output]
            ++ (if cli_verbose o then [ConsolePrint ("Output written to: " ++ file)%string] else []))
    end
  else (Normal (exit_code result), tr ++ [ConsolePrint output]).

(** The [.action(async (options) => ...)] handler of [cli.mjs].  The
    console is silenced before the orchestrator runs unless [--verbose] is
    given, and restored only after it has returned. *)
Definition action (o : CliOptions) (h : Host) : CliResult :=
  if negb (known_format (cli_format o)) then
    (Normal 2,
     [ConsoleError ("Error: Invalid format " ++ dq ++ cli_format o ++ dq ++ ". Must be "
                    ++ dq ++ "text" ++ dq ++ " or " ++ dq ++ "json" ++ dq ++ ".")%string])
  else
    let greeting :=
      if cli_verbose o then
        [ConsolePrint "Starting validation...";
         ConsolePrint ("Workspace: " ++ cli_workspace o)%string;
         ConsolePrint ("Root manifest: " ++ cli_root o)%string;
         ConsolePrint ""]
      else [] in
    let options := mkOptions (Some (cli_workspace o)) (Some (cli_root o)) (Some (cli_verbose o)) in
    match run_validateManifest options (world h) with
    | (Normal result, evs) => emit_and_exit o h result (greeting ++ map Orchestrator evs)
    | (Abrupt e, evs) =>
        fatal (negb (cli_verbose o)) (cli_verbose o) e (greeting ++ map Orchestrator evs)
    | (Unsettled, evs) => (Unsettled, greeting ++ map Orchestrator evs)
    end.

(* ===================================================================== *)
(** ** Example worlds *)
(* ===================================================================== *)

Definition is_absolute (p : string) : bool :=
  match p with
  | String c _ => Ascii.eqb c "/"%char
  | EmptyString => false
  end.

(** A stand-in for [path.resolve] in the example worlds: segments are
    joined left to right from the working directory, an absolute segment
    restarts the path; dot segments are kept as they are. *)
Fixpoint join_from (base : string) (segments : list string) : string :=
  match segments with
  | [] => base
  | s :: rest =>
      join_from (if is_absolute s then s
                 else match s with
                      | EmptyString => base
                      | _ => (base ++ "/" ++ s)%string
                      end) rest
  end.

Definition item_at (where_ : string) : Item :=
  mkItem (Some "uid-1") (Some "Missing description") (Some where_) None None None.

(** A rule that found nothing, one that found an issue, and a load-time
    entry the evaluator reports with the diagnostic tag. *)
Definition clean_result : Problem :=
  mkProblem (Some "rule.clean") (Some "Clean rule") (Some []) None None.

Definition failing_result : Problem :=
  mkProblem (Some "rule.naming") (Some "Naming convention")
            (Some [item_at "/components/BadComponent"]) None None.

Definition tagged_result : Problem :=
  mkProblem (Some "$error.load") (Some "Loading error")
            (Some [item_at "file:///missing.yaml"]) None None.

(** A rule whose evaluation threw: reported on the reject callback with its
    [error] field set. *)
Definition errored_result : Problem :=
  mkProblem (Some "rule.broken") (Some "Broken rule") None (Some "expression raised") None.

Definition two_rules : Manifest :=
  mkManifest
    (Some (mkRules (Some [("rule.clean", mkRule (Some "Clean rule") (Some "(true)"));
                          ("rule.naming", mkRule (Some "Naming convention") (Some "(false)"))])))
    None.

Definition no_rules : Manifest := mkManifest None None.

Definition quiet_run : EvaluatorRun := mkRun [] None [].

(** A workspace [/ws] holding [dochub.yaml], DocHub installed as a
    submodule of the tool in [/app], every collaborator answering normally. *)
Definition base_world (m : option Manifest) (run : EvaluatorRun) : World :=
  mkWorld "/ws" "/app/src" (join_from "/ws")
          (fun p => existsb (String.eqb p) ["/ws"; "/ws/dochub.yaml"; "/app/src/../dochub"])
          None
          (fun _ _ => None) None (fun _ => None) m None None None None
          run 0%N.

Definition default_options : Options := mkOptions None None None.

(** Two rules: one reports clean after 3 ms, the other fails and reports an
    issue on the reject callback 4 ms later. *)
Definition sample_run : EvaluatorRun :=
  mkRun [] None
        [mkTurn 3%N false [mkCall SuccessCallback clean_result];
         mkTurn 4%N false [mkCall RejectCallback failing_result]].

Definition sample_world : World := base_world (Some two_rules) sample_run.

Definition sample_report : Report :=
  mkReport false (mkManifestInfo true "/ws/dochub.yaml" "/ws")
           [clean_result; failing_result]
           (mkStats 2 0 1).

(** Two rules, of which one reports at once and the other never does. *)
Definition hung_run : EvaluatorRun :=
  mkRun [mkCall SuccessCallback clean_result] None [].


(** A parser whose [import] promise is rejected without a reason. *)
Definition rejecting_world : World :=
  mkWorld "/ws" "/app/src" (join_from "/ws")
          (fun p => existsb (String.eqb p) ["/ws"; "/ws/dochub.yaml"; "/app/src/../dochub"])
          None
          (fun _ _ => None) None
          (fun s => match s with StepImportRoot => Some (Throws ThrownNullish) | _ => None end)
          (Some no_rules) None None None None
          quiet_run 0%N.

(** An evaluator that reports both rules before its call returns, and then
    throws. *)
Definition throwing_run : EvaluatorRun :=
  mkRun [mkCall SuccessCallback clean_result; mkCall SuccessCallback clean_result]
        (Some (new_Error "evaluator crashed")) [].

Definition swallowing_world : World := base_world (Some two_rules) throwing_run.

(** A clean workspace, and a host on which the report file cannot be
    written. *)
Definition clean_world : World := base_world (Some no_rules) quiet_run.




(* ===================================================================== *)
(** ** The specification's words, as definitions *)
(* ===================================================================== *)

(** Completion policy of the engine as the specification words it: wait
    until [n] completions have been reported or the ceiling elapses,
    whichever comes first.  [arrived] are the results reported so far,
    [turns] the evaluator's remaining turns; gives the moment the wait ends
    and the results in hand.  A turn comes before the ceiling when the event
    loop runs it before the timer. *)
Fixpoint wait_all_or_ceiling (n : nat) (ceiling now : Time) (arrived : list Problem)
    (turns : list Turn) : Time * list Problem :=
  if n <=? length arrived then (now, arrived)
  else
    match turns with
    | [] => (ceiling, arrived)
    | turn :: rest =>
        if timer_first ceiling (now + turn_gap turn)%N turn then (ceiling, arrived)
        else wait_all_or_ceiling n ceiling (now + turn_gap turn)%N
                                 (arrived ++ map payload (turn_calls turn)) rest
    end.

(** The reports made on the turns that come before the ceiling. *)
Fixpoint calls_before (ceiling now : Time) (turns : list Turn) : list CallbackCall :=
  match turns with
  | [] => []
  | turn :: rest =>
      if timer_first ceiling (now + turn_gap turn)%N turn then []
      else turn_calls turn ++ calls_before ceiling (now + turn_gap turn)%N rest
  end.

(** The results that have arrived when the ceiling elapses. *)
Definition arrivals_before (ceiling now : Time) (turns : list Turn) : list Problem :=
  map payload (calls_before ceiling now turns).

(** Every callback invocation of an evaluator run, in the order made. *)
Definition all_calls (run : EvaluatorRun) : list CallbackCall :=
  launch_calls run ++ flat_map turn_calls (later_turns run).

(** The reports an evaluator started at [now] makes before the ceiling of
    10 seconds: those of its call and those of the turns that come before
    the timer. *)
Definition reports_by_ceiling (run : EvaluatorRun) (now : Time) : list CallbackCall :=
  launch_calls run ++ calls_before (now + 10000)%N now (later_turns run).

(** The same run with each report moved to the channel [f] picks. *)
Definition rechannel_call (f : CallbackCall -> Channel) (c : CallbackCall) : CallbackCall :=
  mkCall (f c) (payload c).

Definition rechannel (f : CallbackCall -> Channel) (run : EvaluatorRun) : EvaluatorRun :=
  mkRun (map (rechannel_call f) (launch_calls run))
        (launch_throw run)
        (map (fun turn => mkTurn (turn_gap turn) (wins_tie turn)
                                 (map (rechannel_call f) (turn_calls turn)))
             (later_turns run)).

(** "Has at least one item". *)
Definition has_items (v : Problem) : bool :=
  match items v with
  | Some l => 0 <? length l
  | None => false
  end.

(** "Diagnostic-tagged": the id starts with ['$error']. *)
Definition diagnostic_tagged (v : Problem) : bool :=
  match id v with
  | Some s => String.prefix DIAGNOSTIC_TAG s
  | None => false
  end.

(** "Has an id not starting with the diagnostic tag". *)
Definition untagged_id (v : Problem) : bool :=
  match id v with
  | Some s => negb (String.prefix DIAGNOSTIC_TAG s)
  | None => false
  end.

(** A real rule result with items. *)
Definition real_issue (v : Problem) : bool := has_items v && untagged_id v.


(** The report of the catch branch for a caught value with the given
    message and stack. *)
Definition degenerate_report (verbose : bool) (workspaceDir manifestPath : string)
    (message stk : option string) : Report :=
  mkReport false (mkManifestInfo false manifestPath workspaceDir)
           [mkProblem (Some "critical-error") (Some "Critical Error") None message
                      (if verbose then stk else None)]
           (mkStats 1 1 0).

Definition verbose_of (options : Options) : bool := default false (opt_verbose options).

Definition rootManifest_of (options : Options) : string :=
  default "dochub.yaml" (opt_rootManifest options).

(** The engine's result list at the moment the orchestrator resumes. *)
Definition engine_results (options : Options) (w : World) : list Problem :=
  validatorResults
    (snd (validationPromise (default false (opt_verbose options))
                            (count_validators (parser_manifest w))
                            (evaluator w) (clock w))).

(** The [problems] of the report a run returned, if it returned one. *)
Definition problems_of_run (outcome : Completion Report * list Effect) : list Problem :=
  match fst outcome with
  | Normal r => problems r
  | _ => []
  end.

(** The two calls by which the engine starts rule evaluation: invoking the
    evaluator and arming the timer. *)
Definition engine_effect (ev : Effect) : bool :=
  match ev with
  | ValidatorsCall | SetTimeout _ => true
  | _ => false
  end.

(** A trace on which rule evaluation was never started. *)
Definition evaluation_free (tr : list Effect) : Prop :=
  Forall (fun ev => engine_effect ev = false) tr.

(** A computation that adds no engine call to a trace that has none. *)
Definition keeps_free {A} (m : Eff A) : Prop :=
  forall tr, evaluation_free tr -> evaluation_free (snd (m tr)).

(** The trace at the entry of the [try] block. *)
Definition session_trace (options : Options) (w : World) : list Effect :=
  snd (prepare_session (default false (opt_verbose options)) w
                       (default "dochub.yaml" (opt_rootManifest options))
                       (workspaceDir_of options w) (manifestPath_of options w) []).



(** The first of the awaited parser calls that is not fulfilled, if any. *)
Fixpoint first_failure (answers : LoadStep -> option Failure) (steps : list LoadStep)
    : option Failure :=
  match steps with
  | [] => None
  | s :: rest =>
      match answers s with
      | Some e => Some e
      | None => first_failure answers rest
      end
  end.

(** What goes wrong, if anything, between the entry of the [try] block and
    the engine: loading, entity processing, custom functions, datasets. *)
Definition setup_failure (w : World) : option Failure :=
  match first_failure (parser_step w) load_steps with
  | Some f => Some f
  | None =>
      match entities w with
      | Some e => Some (Throws e)
      | None =>
          match parser_manifest w with
          | None =>
              Some (Throws (new_TypeError
                              "Cannot read properties of undefined (reading 'functions')"))
          | Some _ =>
              match jsonataFunctions w with
              | Some e => Some (Throws e)
              | None => option_map Throws (datasetsHelper w)
              end
          end
      end
  end.

(** The evaluator's call throwing while rules are still outstanding. *)
Definition launch_failure (w : World) : option Failure :=
  let n := count_validators (parser_manifest w) in
  if (0 <? n) && (length (launch_calls (evaluator w)) <? n)
  then option_map Throws (launch_throw (evaluator w))
  else None.

Definition pipeline_failure (w : World) : option Failure :=
  match setup_failure w with
  | Some e => Some e
  | None => launch_failure w
  end.

(* ===================================================================== *)
(** ** The formatter *)
(* ===================================================================== *)

(** The chalk styles [formatter.mjs] uses. *)
Inductive Style :=
| Bold | Gray | Green | Red | Yellow | Cyan | BoldRed | GreenBold | RedBold.

(** [chalk]: a text painted in a style.  With [chalk.level = 0] every style
    gives the text back unchanged. *)
Definition Chalk := Style -> string -> string.

Definition plain : Chalk := fun _ text => text.

(** ['='.repeat(50)] *)
Fixpoint repeat_string (s : string) (n : nat) : string :=
  match n with
  | 0 => EmptyString
  | S k => (s ++ repeat_string s k)%string
  end.

(** A number interpolated in a template literal. *)
Definition show_nat (n : nat) : string := NilEmpty.string_of_uint (Nat.to_uint n).

(** [value || fallback] *)
Definition or_default (value : option string) (fallback : string) : string :=
  match value with
  | Some (String c rest) => String c rest
  | _ => fallback
  end.

(** [!problem.items || problem.items.length === 0] *)
Definition no_items (problem : Problem) : bool :=
  match items problem with
  | Some l => length l =? 0
  | None => true
  end.

(** The filter of lines 51-68 of [formatter.mjs], clause by clause. *)
Definition shown_problem (problem : Problem) : bool :=
  if truthy (id problem) && String.prefix "$error" (default EmptyString (id problem)) then false
  else if no_items problem then false
  else if truthy (error problem) && no_items problem then false
  else true.

(** [s.split('\n')] *)
Fixpoint split_lines (s : string) : list string :=
  match s with
  | EmptyString => [EmptyString]
  | String c rest =>
      if Ascii.eqb c (ascii_of_nat 10) then EmptyString :: split_lines rest
      else
        match split_lines rest with
        | first :: others => String c first :: others
        | [] => [String c EmptyString]
        end
  end.

(** The lines for one item (lines 91-111). *)
Definition item_lines (paint : Chalk) (verbose : bool) (item : Item) : list string :=
  [paint Red ("  ✗ " ++ or_default (item_title item) "Issue")%string]
  ++ (if truthy (location item)
      then [paint Gray ("    Location: " ++ default EmptyString (location item))%string]
      else [])
  ++ (if truthy (description item) && verbose
      then [paint Gray ("    Description: " ++ default EmptyString (description item))%string]
      else [])
  ++ (if truthy (correction item)
      then [paint Cyan ("    Fix: " ++ default EmptyString (correction item))%string]
      else [])
  ++ (if truthy (cause item)
      then [paint Gray ("    Cause: " ++ default EmptyString (cause item))%string]
      else []).

(** The lines for one listed problem (lines 74-112), without the spacing
    line. *)
Definition problem_lines (paint : Chalk) (verbose : bool) (problem : Problem) : list string :=
  [(paint Yellow ("[" ++ or_default (id problem) "unknown" ++ "]")
    ++ " " ++ paint Bold (or_default (title problem) "Untitled validator"))%string]
  ++ (if truthy (error problem)
      then [paint Red ("  ✗ " ++ default EmptyString (error problem))%string]
           ++ (if verbose && truthy (stack problem)
               then [paint Gray
                       (String.concat nl
                          (map (fun l => ("    " ++ l)%string)
                               (split_lines (default EmptyString (stack problem)))))]
               else [])
      else [])
  ++ (match items problem with
      | Some (i :: l) => flat_map (item_lines paint verbose) (i :: l)
      | _ => []
      end).

(** [realProblems.forEach((problem, index) => ...)]: an empty line after
    each problem but the last. *)
Fixpoint problems_lines (paint : Chalk) (verbose : bool) (realProblems : list Problem)
    : list string :=
  match realProblems with
  | [] => []
  | problem :: rest =>
      problem_lines paint verbose problem
      ++ (match rest with [] => [] | _ => [EmptyString] end)
      ++ problems_lines paint verbose rest
  end.

(** The [lines] array of [formatText]. *)
Definition text_lines (chalk : Chalk) (result : Report) (color verbose : bool) : list string :=
  let paint := if color then chalk else plain in
  let realProblems := filter shown_problem (problems result) in
  [EmptyString; paint Bold "DocHub Architecture Validation";
   paint Gray (repeat_string "=" 50); EmptyString]
  ++ (if loaded (manifest result)
      then [(paint Green "✓" ++ " Manifest loaded successfully")%string;
            paint Gray ("  Workspace: " ++ workspace (manifest result))%string;
            paint Gray ("  Root: " ++ path (manifest result))%string]
      else [(paint Red "✗" ++ " Failed to load manifest")%string;
            paint Gray ("  Path: " ++ path (manifest result))%string])
  ++ [EmptyString]
  ++ (if 0 <? validationErrors (stats result)
      then [paint Bold "Summary:";
            ("  Validation issues: " ++ show_nat (validationErrors (stats result)))%string;
            EmptyString]
      else [])
  ++ (if 0 <? length realProblems
      then [paint BoldRed ("Found " ++ show_nat (length realProblems)
                           ++ " validation issue(s):")%string;
            EmptyString]
           ++ problems_lines paint verbose realProblems
           ++ [EmptyString]
      else [])
  ++ [paint Gray (repeat_string "=" 50);
      if success result then paint GreenBold "✓ Validation PASSED"
      else paint RedBold "✗ Validation FAILED";
      EmptyString].

(** [formatText(result, { color, verbose })] *)
Definition formatText (chalk : Chalk) (result : Report) (color verbose : bool) : string :=
  String.concat nl (text_lines chalk result color verbose).

(** The object [formatJSON] hands to [JSON.stringify]. *)
Record JsonProblem := mkJsonProblem {
  json_id : option string;
  json_title : option string;
  json_error : option string;
  json_items : option (list Item)
}.

Record JsonOutput := mkJsonOutput {
  json_success : bool;
  json_manifest : ManifestInfo;
  json_stats : Stats;
  json_problems : list JsonProblem
}.

Definition json_item (item : Item) : Item :=
  mkItem (uid item) (item_title item) (location item) (description item)
         (correction item) (cause item).

Definition json_problem (problem : Problem) : JsonProblem :=
  mkJsonProblem (id problem) (title problem) (error problem)
                (option_map (map json_item) (items problem)).

Definition json_output (result : Report) : JsonOutput :=
  mkJsonOutput (success result) (manifest result) (stats result)
               (map json_problem (problems result)).

(** [formatJSON(result, { pretty })]; [stringify] is [JSON.stringify] with
    its indentation argument. *)
Definition formatJSON (stringify : JsonOutput -> option nat -> string)
    (result : Report) (pretty : bool) : string :=
  if pretty then stringify (json_output result) (Some 2)
  else stringify (json_output result) None.

(** [format(result, formatType, options)] of [formatter.mjs]. *)
Definition format_result (chalk : Chalk) (stringify : JsonOutput -> option nat -> string)
    (result : Report) (formatType : string) (color verbose pretty : bool) : string :=
  if String.eqb (toLowerCase formatType) "json" then formatJSON stringify result pretty
  else formatText chalk result color verbose.

(** A host whose [format] is the formatter of the repository. *)
Definition formatter_host (chalk : Chalk) (stringify : JsonOutput -> option nat -> string)
    (w : World) (write : option Thrown) : Host :=
  mkHost w (format_result chalk stringify) write.

(* ===================================================================== *)
(** ** Outcomes without traces, and observations on traces *)
(* ===================================================================== *)

(** The first dynamic import that is not fulfilled, if any. *)
Fixpoint first_import_failure (answers : DocHubModule -> option Failure)
    (ms : list DocHubModule) : option Failure :=
  match ms with
  | [] => None
  | m :: rest =>
      match answers m with
      | Some e => Some e
      | None => first_import_failure answers rest
      end
  end.

(** What goes wrong, if anything, between the eager checks and the [try]
    block. *)
Definition session_failure (w : World) : option Failure :=
  match find (existsSync w) (possiblePaths w) with
  | None => Some (Throws (new_Error DOCHUB_NOT_FOUND))
  | Some dochubPath =>
      match first_import_failure (import_module w dochubPath) imported_modules with
      | Some f => Some f
      | None => option_map Throws (errorClear w)
      end
  end.

(** How a computation ends on a failure. *)
Definition ends_on {A} (f : Failure) : Completion A :=
  match f with
  | Throws e => Abrupt e
  | NeverSettles => Unsettled
  end.

(** The engine's result list for a given verbosity. *)
Definition results_of (verbose : bool) (w : World) : list Problem :=
  validatorResults
    (snd (validationPromise verbose (count_validators (parser_manifest w))
                            (evaluator w) (clock w))).

(** How the [try] block completes. *)
Definition try_outcome (verbose : bool) (w : World) (wd mp : string) : Completion Report :=
  match pipeline_failure w with
  | Some f => ends_on f
  | None =>
      match filter_real (results_of verbose w) with
      | Normal real =>
          Normal (mkReport (length real =? 0)
                           (mkManifestInfo true mp wd)
                           (collect_errors (cache_errors w) ++ results_of verbose w)
                           (mkStats (length (collect_errors (cache_errors w)
                                             ++ results_of verbose w))
                                    (length (collect_errors (cache_errors w)))
                                    (length real)))
      | Abrupt e => Abrupt e
      | Unsettled => Unsettled
      end
  end.

(** What the [catch] block makes of it. *)
Definition catch_outcome (verbose : bool) (wd mp : string) (c : Completion Report)
    : Completion Report :=
  match c with
  | Abrupt (ThrownValue message stk) => Normal (degenerate_report verbose wd mp message stk)
  | Abrupt ThrownNullish =>
      Abrupt (new_TypeError "Cannot read properties of undefined (reading 'message')")
  | other => other
  end.

(** How [validateManifest] completes. *)
Definition outcome (o : Options) (w : World) : Completion Report :=
  if negb (existsSync w (workspaceDir_of o w)) then
    Abrupt (new_Error ("Workspace directory not found: " ++ workspaceDir_of o w)%string)
  else if negb (existsSync w (manifestPath_of o w)) then
    Abrupt (new_Error ("Root manifest not found: " ++ manifestPath_of o w)%string)
  else
    match session_failure w with
    | Some f => ends_on f
    | None =>
        catch_outcome (verbose_of o) (workspaceDir_of o w) (manifestPath_of o w)
                      (try_outcome (verbose_of o) w (workspaceDir_of o w) (manifestPath_of o w))
    end.

(** The part of the engine's variables that is not console output. *)
Definition engine_core (st : EngineState)
    : list Problem * nat * PromiseState * option N :=
  (validatorResults st, completedCount st, promise st, timer st).

(** A computation that only extends the trace, and only by effects
    satisfying [Q]. *)
Definition adds_only {A} (Q : Effect -> Prop) (m : Eff A) : Prop :=
  forall tr, exists ext, snd (m tr) = tr ++ ext /\ Forall Q ext.

Definition is_console_log (ev : Effect) : bool :=
  match ev with
  | ConsoleLog _ => true
  | _ => false
  end.

Definition is_env_write (ev : Effect) : bool :=
  match ev with
  | SetEnvRootManifest _ => true
  | _ => false
  end.

(** The value of [process.env.VUE_APP_DOCHUB_ROOT_MANIFEST] after the
    effects of a trace, from its value before. *)
Definition root_manifest_env (before : option string) (tr : list Effect) : option string :=
  fold_left (fun current ev =>
               match ev with
               | SetEnvRootManifest value => Some value
               | _ => current
               end) tr before.

(** What reaches the user's terminal or disk from the action. *)
Definition is_user_output (ev : CliEffect) : bool :=
  match ev with
  | ConsolePrint _ | ConsoleError _ | WriteFile _ _ => true
  | Orchestrator _ => false
  end.

(** A report in which the entry of the catch branch has lost its stack. *)
Definition without_critical_stack (r : Report) : Report :=
  if loaded (manifest r) then r
  else mkReport (success r) (manifest r)
                (map (fun p => mkProblem (id p) (title p) (items p) (error p) None)
                     (problems r))
                (stats r).

(** The effects of the session set-up (lines 103-171): console lines only
    when verbose, the globals set to the resolved workspace, the
    environment variable set to its default or to the root manifest option,
    modules imported from the DocHub path found, the parser configured
    and the error cache cleared. *)
Definition session_event (verbose : bool) (w : World) (root wd : string) (ev : Effect) : Prop :=
  match ev with
  | ConsoleLog _ => verbose = true
  | SetGlobals d => d = path_resolve w [wd]
  | SetEnvRootManifest v => v = root \/ v = "dochub.yaml"
  | ImportModule p _ => find (existsSync w) (possiblePaths w) = Some p
  | ConfigureParser | CacheErrorClear => True
  | _ => False
  end.

(** The effects of the [try] block: console lines only when verbose, the
    calls on parser, entities, custom functions, datasets and evaluator,
    and a timer of 10000 ms. *)
Definition pipeline_event (verbose : bool) (ev : Effect) : Prop :=
  match ev with
  | ConsoleLog _ => verbose = true
  | ParserCall _ | EntitiesCall | JsonataFunctionsCall | SetCustomFunctions
  | DatasetsCall | ValidatorsCall => True
  | SetTimeout d => d = 10000%N
  | _ => False
  end.

(** The options the action passes to [validateManifest] (lines 73-77 of
    [cli.mjs]). *)
Definition orchestrator_options (o : CliOptions) : Options :=
  mkOptions (Some (cli_workspace o)) (Some (cli_root o)) (Some (cli_verbose o)).

Definition STARTSWITH_ON_UNDEFINED : string :=
  "Cannot read properties of undefined (reading 'startsWith')".

(** Further example worlds: a rule result with items and no id; an entity
    post-processor that throws; a parser that leaves no manifest. *)
Definition nameless_result : Problem :=
  mkProblem None None (Some [item_at "/x"]) None None.

Definition nameless_world : World :=
  base_world (Some two_rules)
             (mkRun [mkCall SuccessCallback clean_result;
                     mkCall SuccessCallback nameless_result] None []).

Definition entities_failing_world : World :=
  mkWorld "/ws" "/app/src" (join_from "/ws")
          (fun p => existsb (String.eqb p) ["/ws"; "/ws/dochub.yaml"; "/app/src/../dochub"])
          None
          (fun _ _ => None) None (fun _ => None) (Some two_rules)
          (Some (new_Error "entities: bad manifest")) None None None
          sample_run 0%N.

Definition broken_world : World := base_world None quiet_run.

Definition broken_report : Report :=
  degenerate_report false "/ws" "/ws/dochub.yaml"
    (Some "Cannot read properties of undefined (reading 'functions')")
    (Some "TypeError: Cannot read properties of undefined (reading 'functions')").

Definition text_to_console : CliOptions :=
  mkCliOptions "/ws" "dochub.yaml" "text" true false true None.

Definition nowhere_to_console : CliOptions :=
  mkCliOptions "/nowhere" "dochub.yaml" "text" true false true None.

Definition console_host (w : World) : Host :=
  mkHost w (fun _ _ _ _ _ => "report") None.

(** Two rules, the first of which fails and is reported on the reject
    callback with its [error] set; the second reports later. *)
Definition failing_run : EvaluatorRun :=
  mkRun [] None
        [mkTurn 2%N false [mkCall RejectCallback errored_result];
         mkTurn 5%N false [mkCall SuccessCallback clean_result]].

(** A rule that reports from a timer of 10000 ms which the evaluator armed
    during its call: its turn runs ahead of the safety timer. *)
Definition photo_finish_run : EvaluatorRun :=
  mkRun [mkCall SuccessCallback clean_result] None
        [mkTurn 10000%N true [mkCall SuccessCallback failing_result]].

(** Entries of [cache.errors]: one carries the diagnostic tag, the other
    has an item under an id of its own. *)
Definition untagged_entry : Problem :=
  mkProblem (Some "file:///ws/broken.yaml") (Some "Unreadable file")
            (Some [item_at "file:///ws/broken.yaml"]) None None.

Definition sample_errors : list (string * Problem) :=
  [("$error.load", tagged_result); ("file:///ws/broken.yaml", untagged_entry)].

(** The sample workspace and a clean one, with these entries in
    [cache.errors]. *)
Definition with_errors (w : World) : World :=
  mkWorld (cwd w) (dirname w) (path_resolve w) (existsSync w) (env_root_manifest w)
          (import_module w) (errorClear w) (parser_step w) (parser_manifest w)
          (entities w) (Some sample_errors) (jsonataFunctions w) (datasetsHelper w)
          (evaluator w) (clock w).

Definition diagnosed_world : World := with_errors sample_world.

Definition diagnosed_report : Report :=
  mkReport false (mkManifestInfo true "/ws/dochub.yaml" "/ws")
           [tagged_result; untagged_entry; clean_result; failing_result]
           (mkStats 4 2 1).

Definition diagnosed_clean_world : World := with_errors clean_world.

Definition diagnosed_clean_report : Report :=
  mkReport true (mkManifestInfo true "/ws/dochub.yaml" "/ws")
           [tagged_result; untagged_entry]
           (mkStats 2 2 0).

(** A parser whose [checkAwaitedPackages] promise is never settled. *)
Definition pending_world : World :=
  mkWorld "/ws" "/app/src" (join_from "/ws")
          (fun p => existsb (String.eqb p) ["/ws"; "/ws/dochub.yaml"; "/app/src/../dochub"])
          None
          (fun _ _ => None) None
          (fun s => match s with StepCheckAwaitedPackages => Some NeverSettles | _ => None end)
          (Some two_rules) None None None None
          sample_run 0%N.

(** A report written to [/tmp/report.txt]. *)
Definition text_to_file : CliOptions :=
  mkCliOptions "/ws" "dochub.yaml" "text" true false true (Some "/tmp/report.txt").

(* ===================================================================== *)
(** ** Properties of the effect monad *)
(* ===================================================================== *)

Unset Implicit Arguments.

Lemma bind_normal_inv {A B} (m : Eff A) (k : A -> Eff B) tr b tr' :
  bind m k tr = (Normal b, tr') ->
  exists a tr1, m tr = (Normal a, tr1) /\ k a tr1 = (Normal b, tr').
Proof.
  unfold bind. destruct (m tr) as [[a | e |] tr1]; intro H; try discriminate.
  exists a, tr1. split; [reflexivity | exact H].
Qed.

Lemma log_if_run verbose line tr :
  exists tr', log_if verbose line tr = (Normal tt, tr').
Proof. unfold log_if, emit, ret. destruct verbose; eauto. Qed.

(* ===================================================================== *)
(** ** Properties of the completion callback *)
(* ===================================================================== *)

Section Callback.

Variable verbose : bool.
Variable validatorCount : nat.

Local Abbreviation cb := (onValidatorComplete verbose validatorCount).

Lemma resolve_fields st :
  validatorResults (resolve st) = validatorResults st
  /\ completedCount (resolve st) = completedCount st
  /\ timer (resolve st) = timer st.
Proof. unfold resolve. destruct (promise st); auto. Qed.

Lemma engine_log_fields v line st :
  validatorResults (engine_log v line st) = validatorResults st
  /\ completedCount (engine_log v line st) = completedCount st
  /\ timer (engine_log v line st) = timer st
  /\ promise (engine_log v line st) = promise st.
Proof. unfold engine_log, engine_emit. destruct v; auto. Qed.

Lemma callback_results validator st :
  validatorResults (cb validator st) = validatorResults st ++ [validator].
Proof.
  unfold onValidatorComplete.
  destruct (validatorCount <=? _).
  - rewrite (proj1 (resolve_fields _)).
    now rewrite (proj1 (engine_log_fields _ _ _)).
  - now rewrite (proj1 (engine_log_fields _ _ _)).
Qed.

Lemma callback_count validator st :
  completedCount (cb validator st) = S (completedCount st).
Proof.
  unfold onValidatorComplete.
  destruct (validatorCount <=? _).
  - destruct (resolve_fields (engine_log verbose
      (LogValidatorCompleted (id validator) (issues_found validator))
      (mkEngine (validatorResults st ++ [validator]) (S (completedCount st))
                (promise st) (timer st) (emitted st)))) as (_ & -> & _).
    now destruct (engine_log_fields verbose
      (LogValidatorCompleted (id validator) (issues_found validator))
      (mkEngine (validatorResults st ++ [validator]) (S (completedCount st))
                (promise st) (timer st) (emitted st))) as (_ & -> & _).
  - now destruct (engine_log_fields verbose
      (LogValidatorCompleted (id validator) (issues_found validator))
      (mkEngine (validatorResults st ++ [validator]) (S (completedCount st))
                (promise st) (timer st) (emitted st))) as (_ & -> & _).
Qed.

Lemma callback_timer validator st :
  timer (cb validator st) = timer st.
Proof.
  unfold onValidatorComplete, resolve, engine_log, engine_emit.
  destruct verbose; simpl; destruct (validatorCount <=? _); simpl;
    try destruct (promise st); reflexivity.
Qed.

Lemma callback_promise validator st :
  promise (cb validator st) =
  match promise st with
  | Pending => if validatorCount <=? S (completedCount st) then Fulfilled else Pending
  | other => other
  end.
Proof.
  unfold onValidatorComplete, resolve, engine_log, engine_emit.
  destruct verbose; simpl; destruct (validatorCount <=? _); simpl;
    destruct (promise st); reflexivity.
Qed.

(** Both channels lead to the same code. *)
Lemma invoke_channel_blind c st :
  invoke cb cb c st = cb (payload c) st.
Proof. unfold invoke. destruct (channel c); reflexivity. Qed.

Lemma deliver_cons c calls st :
  deliver cb cb (c :: calls) st = deliver cb cb calls (cb (payload c) st).
Proof. unfold deliver. simpl. now rewrite invoke_channel_blind. Qed.

Lemma deliver_results calls : forall st,
  validatorResults (deliver cb cb calls st) = validatorResults st ++ map payload calls.
Proof.
  induction calls as [| c calls IH]; intro st.
  - simpl. now rewrite app_nil_r.
  - rewrite deliver_cons, IH, callback_results. simpl. now rewrite <- app_assoc.
Qed.

Lemma deliver_count calls : forall st,
  completedCount (deliver cb cb calls st) = completedCount st + length calls.
Proof.
  induction calls as [| c calls IH]; intro st.
  - simpl. lia.
  - rewrite deliver_cons, IH, callback_count. simpl. lia.
Qed.

Lemma deliver_timer calls : forall st,
  timer (deliver cb cb calls st) = timer st.
Proof.
  induction calls as [| c calls IH]; intro st.
  - reflexivity.
  - now rewrite deliver_cons, IH, callback_timer.
Qed.

Lemma deliver_settled calls : forall st,
  promise st <> Pending -> promise (deliver cb cb calls st) = promise st.
Proof.
  induction calls as [| c calls IH]; intros st Hs.
  - reflexivity.
  - rewrite deliver_cons, IH; rewrite callback_promise; destruct (promise st); congruence.
Qed.

Lemma deliver_pending calls : forall st,
  promise st = Pending ->
  completedCount st < validatorCount ->
  promise (deliver cb cb calls st) =
  if validatorCount <=? completedCount st + length calls then Fulfilled else Pending.
Proof.
  induction calls as [| c calls IH]; intros st Hp Hlt.
  - simpl. rewrite Nat.add_0_r.
    destruct (Nat.leb_spec validatorCount (completedCount st)); [lia | exact Hp].
  - rewrite deliver_cons.
    destruct (Nat.leb_spec validatorCount (S (completedCount st))) as [Hle | Hgt].
    + rewrite deliver_settled.
      * rewrite callback_promise, Hp.
        destruct (Nat.leb_spec validatorCount (S (completedCount st))); [| lia].
        simpl length.
        destruct (Nat.leb_spec validatorCount (completedCount st + S (length calls))); [reflexivity | lia].
      * rewrite callback_promise, Hp.
        destruct (Nat.leb_spec validatorCount (S (completedCount st))); [discriminate | lia].
    + rewrite IH.
      * rewrite callback_count. simpl length.
        now replace (S (completedCount st) + length calls)
          with (completedCount st + S (length calls)) by lia.
      * rewrite callback_promise, Hp.
        destruct (Nat.leb_spec validatorCount (S (completedCount st))); [lia | reflexivity].
      * rewrite callback_count. exact Hgt.
Qed.

End Callback.

(* ===================================================================== *)
(** ** Properties of the engine *)
(* ===================================================================== *)

Section Engine.

Variable verbose : bool.
Variable validatorCount : nat.

Local Abbreviation cb := (onValidatorComplete verbose validatorCount).

Lemma await_settled now queue st :
  settled st = true -> await verbose validatorCount now queue st = (now, st).
Proof. intro H. destruct queue as [| [t task] rest]; simpl; now rewrite H. Qed.

Lemma await_nil now st : await verbose validatorCount now [] st = (now, st).
Proof. simpl. now destruct (settled st). Qed.

Lemma await_step now t task rest st :
  settled st = false ->
  await verbose validatorCount now ((t, task) :: rest) st
  = await verbose validatorCount t rest (run_task verbose validatorCount task st).
Proof. intro H. simpl. now rewrite H. Qed.

Lemma settled_pending st : promise st = Pending -> settled st = false.
Proof. unfold settled. now intros ->. Qed.

Lemma settled_fulfilled st : promise st = Fulfilled -> settled st = true.
Proof. unfold settled. now intros ->. Qed.

Lemma onTimeout_results st :
  validatorResults (onTimeout verbose validatorCount st) = validatorResults st.
Proof.
  unfold onTimeout. destruct (completedCount st <? validatorCount); [| reflexivity].
  rewrite (proj1 (resolve_fields _)). now rewrite (proj1 (engine_log_fields _ _ _)).
Qed.

Lemma onTimeout_pending st :
  promise st = Pending ->
  completedCount st < validatorCount ->
  promise (onTimeout verbose validatorCount st) = Fulfilled.
Proof.
  intros Hp Hlt. unfold onTimeout.
  destruct (Nat.ltb_spec (completedCount st) validatorCount); [| lia].
  unfold resolve.
  destruct (engine_log_fields verbose (LogTimeoutWarning (completedCount st) validatorCount) st)
    as (_ & _ & _ & ->).
  now rewrite Hp.
Qed.

(** While the promise is pending and the timer is armed, the event loop
    does what the specification's completion policy says. *)
Lemma await_follows_policy d : forall turns now st,
  promise st = Pending ->
  completedCount st < validatorCount ->
  length (validatorResults st) = completedCount st ->
  promise (snd (await verbose validatorCount now (schedule now (Some d) turns) st)) = Fulfilled
  /\ (fst (await verbose validatorCount now (schedule now (Some d) turns) st),
      validatorResults (snd (await verbose validatorCount now (schedule now (Some d) turns) st)))
     = wait_all_or_ceiling validatorCount d now (validatorResults st) turns.
Proof.
  induction turns as [| [gap first calls] rest IH]; intros now st Hp Hlt Hlen.
  - cbn [schedule wait_all_or_ceiling].
    rewrite await_step by (now apply settled_pending).
    rewrite await_nil. cbn [run_task fst snd]. rewrite Hlen.
    destruct (Nat.leb_spec validatorCount (completedCount st)); [lia |].
    split; [now apply onTimeout_pending | now rewrite onTimeout_results].
  - cbn [schedule wait_all_or_ceiling turn_gap turn_calls]. rewrite Hlen.
    destruct (Nat.leb_spec validatorCount (completedCount st)); [lia |].
    destruct (timer_first d (now + gap)%N (mkTurn gap first calls)).
    + rewrite await_step by (now apply settled_pending).
      rewrite await_settled by (apply settled_fulfilled, onTimeout_pending; assumption).
      cbn [run_task fst snd].
      split; [now apply onTimeout_pending | now rewrite onTimeout_results].
    + rewrite await_step by (now apply settled_pending). cbn [run_task].
      pose proof (deliver_pending verbose validatorCount calls st Hp Hlt) as Hq.
      destruct (Nat.leb_spec validatorCount (completedCount st + length calls)) as [Hle | Hgt].
      * rewrite await_settled by (apply settled_fulfilled; exact Hq).
        simpl fst. simpl snd. split; [exact Hq |].
        rewrite deliver_results.
        destruct rest as [| [gap' first' calls'] rest']; cbn [wait_all_or_ceiling];
          rewrite length_app, length_map, Hlen;
          destruct (Nat.leb_spec validatorCount (completedCount st + length calls));
          try lia; reflexivity.
      * specialize (IH (now + gap)%N (deliver cb cb calls st) Hq).
        rewrite deliver_count, deliver_results in IH.
        rewrite length_app, length_map in IH.
        exact (IH Hgt ltac:(lia)).
Qed.

(** Whatever the timer and the turns do, the result list only grows by
    what the evaluator reports, in the order reported. *)
Lemma await_results_prefix : forall turns now due st,
  exists rest,
    validatorResults st ++ map payload (flat_map turn_calls turns)
    = validatorResults (snd (await verbose validatorCount now (schedule now due turns) st)) ++ rest.
Proof.
  assert (Hstop : forall now queue st l, settled st = true ->
    exists rest, validatorResults st ++ l
      = validatorResults (snd (await verbose validatorCount now queue st)) ++ rest).
  { intros now queue st l Hs. rewrite await_settled by exact Hs. now exists l. }
  assert (Htimer : forall now d st l,
    exists rest, validatorResults st ++ l
      = validatorResults (snd (await verbose validatorCount now [(d, TimerTask)] st)) ++ rest).
  { intros now d st l. simpl. destruct (settled st); [now exists l |].
    destruct (settled _); simpl; rewrite onTimeout_results; now exists l. }
  induction turns as [| [gap first calls] rest IH]; intros now due st.
  - simpl flat_map. simpl map. destruct due as [d |]; [apply Htimer |].
    simpl. destruct (settled st); simpl; now exists [].
  - destruct (settled st) eqn:Hs; [apply Hstop; exact Hs |].
    assert (Hturn : forall st0 due0,
      validatorResults st0 = validatorResults st ->
      settled st0 = false ->
      exists rest0,
        validatorResults st ++ map payload (flat_map turn_calls (mkTurn gap first calls :: rest))
        = validatorResults (snd (await verbose validatorCount (now + gap)%N
                                        (schedule (now + gap)%N due0 rest)
                                        (deliver cb cb calls st0))) ++ rest0).
    { intros st0 due0 Hres Hs0.
      destruct (IH (now + gap)%N due0 (deliver cb cb calls st0)) as [rest0 Hrest0].
      exists rest0. rewrite <- Hrest0. rewrite deliver_results, Hres.
      simpl flat_map. now rewrite map_app, app_assoc. }
    cbn [schedule turn_gap turn_calls]. destruct due as [d |].
    + destruct (timer_first d (now + gap)%N (mkTurn gap first calls)).
      * cbn [await]. rewrite Hs. cbn [run_task].
        destruct (settled (onTimeout verbose validatorCount st)) eqn:Ht.
        -- simpl. rewrite onTimeout_results. eexists; reflexivity.
        -- cbn [run_task]. apply Hturn; [apply onTimeout_results | exact Ht].
      * cbn [await]. rewrite Hs. cbn [run_task]. now apply Hturn.
    + cbn [await]. rewrite Hs. cbn [run_task]. now apply Hturn.
Qed.

Lemma deliver_rechannel f calls : forall st,
  deliver cb cb (map (rechannel_call f) calls) st = deliver cb cb calls st.
Proof.
  induction calls as [| c calls IH]; intro st; [reflexivity |].
  simpl map. rewrite !deliver_cons. apply IH.
Qed.

Lemma await_rechannel f : forall turns now due st,
  await verbose validatorCount now
        (schedule now due
           (map (fun turn => mkTurn (turn_gap turn) (wins_tie turn)
                                    (map (rechannel_call f) (turn_calls turn))) turns)) st
  = await verbose validatorCount now (schedule now due turns) st.
Proof.
  induction turns as [| [gap first calls] rest IH]; intros now due st; [reflexivity |].
  simpl map. cbn [schedule turn_gap turn_calls]. destruct due as [d |].
  - unfold timer_first. cbn [wins_tie].
    destruct ((d <? now + gap)%N || (d =? now + gap)%N && negb first).
    + cbn [await run_task]. destruct (settled st); [reflexivity |].
      destruct (settled _); [reflexivity |].
      rewrite deliver_rechannel. apply IH.
    + cbn [await run_task]. destruct (settled st); [reflexivity |].
      rewrite deliver_rechannel. apply IH.
  - cbn [await run_task]. destruct (settled st); [reflexivity |].
    rewrite deliver_rechannel. apply IH.
Qed.

Lemma executor_rechannel f run now st :
  executor verbose validatorCount (rechannel f run) now st
  = executor verbose validatorCount run now st.
Proof.
  unfold executor. destruct (validatorCount =? 0); [reflexivity |].
  simpl launch_calls. simpl launch_throw. now rewrite deliver_rechannel.
Qed.

(** The state in which the executor leaves the promise. *)
Lemma executor_launched run now :
  0 < validatorCount ->
  launch_throw run = None ->
  validatorResults (executor verbose validatorCount run now engine_init)
  = map payload (launch_calls run)
  /\ completedCount (executor verbose validatorCount run now engine_init)
     = length (launch_calls run)
  /\ timer (executor verbose validatorCount run now engine_init)
     = Some (now + SAFETY_TIMEOUT)%N
  /\ promise (executor verbose validatorCount run now engine_init)
     = if validatorCount <=? length (launch_calls run) then Fulfilled else Pending.
Proof.
  intros Hn Hthrow. unfold executor.
  destruct (Nat.eqb_spec validatorCount 0); [lia |].
  rewrite Hthrow. unfold setTimeout. simpl.
  rewrite deliver_results, deliver_count.
  repeat split.
  rewrite deliver_pending; simpl; auto.
Qed.

(** The awaited promise is always settled: the orchestrator resumes. *)
Lemma engine_settles run now :
  promise (snd (validationPromise verbose validatorCount run now)) <> Pending.
Proof.
  unfold validationPromise.
  destruct (Nat.eq_dec validatorCount 0) as [Hz | Hnz].
  - rewrite await_settled.
    + simpl. unfold executor. destruct (Nat.eqb_spec validatorCount 0); [| lia].
      unfold resolve.
      destruct (engine_log_fields verbose LogNoValidators engine_init) as (_ & _ & _ & ->).
      simpl. discriminate.
    + unfold executor. destruct (Nat.eqb_spec validatorCount 0); [| lia].
      unfold settled, resolve.
      destruct (engine_log_fields verbose LogNoValidators engine_init) as (_ & _ & _ & ->).
      reflexivity.
  - destruct (launch_throw run) as [e |] eqn:Hthrow.
    + assert (Hs : settled (executor verbose validatorCount run now engine_init) = true).
      { unfold executor. destruct (Nat.eqb_spec validatorCount 0); [lia |].
        rewrite Hthrow. unfold reject.
        destruct (promise (deliver _ _ _ _)) eqn:E; unfold settled; simpl; try rewrite E; reflexivity. }
      rewrite await_settled by exact Hs. simpl.
      unfold settled in Hs. destruct (promise _); congruence.
    + destruct (executor_launched run now ltac:(lia) Hthrow) as (Hres & Hcnt & Htm & Hpr).
      rewrite Htm.
      destruct (Nat.leb_spec validatorCount (length (launch_calls run))).
      * rewrite await_settled by (apply settled_fulfilled; exact Hpr).
        simpl. rewrite Hpr. discriminate.
      * destruct (await_follows_policy (now + SAFETY_TIMEOUT)%N (later_turns run) now
                    (executor verbose validatorCount run now engine_init) Hpr)
          as [Hf _]; [lia | rewrite Hres, length_map; lia |].
        congruence.
Qed.

End Engine.

Lemma timer_first_false d t turn : timer_first d t turn = false -> (t <= d)%N.
Proof.
  unfold timer_first. intro H. apply orb_false_iff in H. destruct H as [H _].
  now apply N.ltb_ge in H.
Qed.

(** What the specification's policy yields. *)
Lemma wait_outcome n d : forall turns now arrived,
  (now <= d)%N ->
  (n <= length (snd (wait_all_or_ceiling n d now arrived turns))
   /\ (now <= fst (wait_all_or_ceiling n d now arrived turns) <= d)%N)
  \/ (fst (wait_all_or_ceiling n d now arrived turns) = d
      /\ length (snd (wait_all_or_ceiling n d now arrived turns)) < n
      /\ snd (wait_all_or_ceiling n d now arrived turns) = arrived ++ arrivals_before d now turns).
Proof.
  unfold arrivals_before.
  induction turns as [| [gap first calls] rest IH]; intros now arrived Hnow.
  - simpl. destruct (Nat.leb_spec n (length arrived)); simpl.
    + left. lia.
    + right. rewrite app_nil_r. auto.
  - cbn [wait_all_or_ceiling calls_before turn_gap turn_calls].
    destruct (Nat.leb_spec n (length arrived)) as [Hle | Hgt].
    + left. simpl. lia.
    + destruct (timer_first d (now + gap)%N (mkTurn gap first calls)) eqn:Htf.
      * right. simpl. rewrite app_nil_r. auto.
      * apply timer_first_false in Htf.
        destruct (IH (now + gap)%N (arrived ++ map payload calls) Htf)
          as [[H1 H2] | (H1 & H2 & H3)].
        -- left. split; [exact H1 | lia].
        -- right. repeat split; auto. rewrite H3. now rewrite map_app, app_assoc.
Qed.

(** The turns that come before the ceiling are the first of all turns. *)
Lemma calls_before_prefix d : forall turns now,
  exists rest, flat_map turn_calls turns = calls_before d now turns ++ rest.
Proof.
  induction turns as [| turn rest IH]; intro now; [now exists [] |].
  cbn [calls_before flat_map].
  destruct (timer_first d (now + turn_gap turn)%N turn).
  - now exists (turn_calls turn ++ flat_map turn_calls rest).
  - destruct (IH (now + turn_gap turn)%N) as [rest' ->].
    exists rest'. now rewrite app_assoc.
Qed.

Section EngineRun.

Variable verbose : bool.
Variable validatorCount : nat.

Local Abbreviation cb := (onValidatorComplete verbose validatorCount).

(** With rules to run and an evaluator whose call returns, the awaited
    promise is fulfilled, at the moment and with the results the
    specification's policy gives. *)
Lemma engine_follows_policy run now :
  0 < validatorCount ->
  launch_throw run = None ->
  promise (snd (validationPromise verbose validatorCount run now)) = Fulfilled
  /\ (fst (validationPromise verbose validatorCount run now),
      validatorResults (snd (validationPromise verbose validatorCount run now)))
     = wait_all_or_ceiling validatorCount (now + 10000)%N now
                           (map payload (launch_calls run)) (later_turns run).
Proof.
  intros Hn Hthrow. unfold validationPromise.
  destruct (executor_launched verbose validatorCount run now Hn Hthrow)
    as (Hres & Hcnt & Htm & Hpr).
  rewrite Htm. change SAFETY_TIMEOUT with 10000%N.
  destruct (Nat.leb_spec validatorCount (length (launch_calls run))) as [Hle | Hgt].
  - rewrite await_settled by (apply settled_fulfilled; exact Hpr).
    simpl fst. simpl snd. split; [exact Hpr |]. rewrite Hres.
    destruct (later_turns run) as [| turn rest]; cbn [wait_all_or_ceiling];
      rewrite length_map; destruct (Nat.leb_spec validatorCount (length (launch_calls run)));
      try lia; reflexivity.
  - rewrite <- Hres. apply await_follows_policy; [exact Hpr | lia |].
    rewrite Hres, length_map. now rewrite Hcnt.
Qed.

(** The engine's list is an initial segment of everything the evaluator
    reports, in the order reported. *)
Lemma engine_results_prefix run now :
  exists rest,
    map payload (all_calls run)
    = validatorResults (snd (validationPromise verbose validatorCount run now)) ++ rest.
Proof.
  unfold validationPromise, all_calls. rewrite map_app.
  destruct (Nat.eq_dec validatorCount 0) as [Hz | Hn].
  - rewrite await_settled by (rewrite Hz; destruct verbose; reflexivity).
    exists (map payload (launch_calls run)
            ++ map payload (flat_map turn_calls (later_turns run))).
    rewrite Hz. destruct verbose; reflexivity.
  - assert (Hres : validatorResults (executor verbose validatorCount run now engine_init)
                   = map payload (launch_calls run)).
    { unfold executor. destruct (Nat.eqb_spec validatorCount 0); [lia |].
      destruct (launch_throw run); unfold reject, setTimeout; simpl;
        try destruct (promise _); simpl; now rewrite deliver_results. }
    rewrite <- Hres. apply await_results_prefix.
Qed.

Lemma onTimeout_count st :
  completedCount (onTimeout verbose validatorCount st) = completedCount st.
Proof.
  unfold onTimeout. destruct (completedCount st <? validatorCount); [| reflexivity].
  destruct (resolve_fields (engine_log verbose
              (LogTimeoutWarning (completedCount st) validatorCount) st)) as (_ & -> & _).
  now destruct (engine_log_fields verbose
                  (LogTimeoutWarning (completedCount st) validatorCount) st) as (_ & -> & _).
Qed.

(** Every result in the list has been counted, and only those. *)
Lemma await_counts : forall queue now st,
  completedCount st = length (validatorResults st) ->
  completedCount (snd (await verbose validatorCount now queue st))
  = length (validatorResults (snd (await verbose validatorCount now queue st))).
Proof.
  induction queue as [| [t task] rest IH]; intros now st H.
  - now rewrite await_nil.
  - destruct (settled st) eqn:Hs.
    + now rewrite await_settled.
    + rewrite await_step by exact Hs. apply IH.
      destruct task; cbn [run_task].
      * rewrite deliver_count, deliver_results, length_app, length_map. lia.
      * now rewrite onTimeout_count, onTimeout_results.
Qed.

Lemma executor_counts run now :
  completedCount (executor verbose validatorCount run now engine_init)
  = length (validatorResults (executor verbose validatorCount run now engine_init)).
Proof.
  unfold executor. destruct (validatorCount =? 0).
  - destruct (resolve_fields (engine_log verbose LogNoValidators engine_init))
      as (-> & -> & _).
    now destruct (engine_log_fields verbose LogNoValidators engine_init) as (-> & -> & _).
  - assert (H : completedCount (deliver cb cb (launch_calls run)
                                        (engine_emit ValidatorsCall engine_init))
                = length (validatorResults (deliver cb cb (launch_calls run)
                                              (engine_emit ValidatorsCall engine_init)))).
    { rewrite deliver_count, deliver_results, length_app, length_map. reflexivity. }
    destruct (launch_throw run); unfold reject, setTimeout;
      try destruct (promise _); simpl; exact H.
Qed.

Lemma engine_counts run now :
  completedCount (snd (validationPromise verbose validatorCount run now))
  = length (validatorResults (snd (validationPromise verbose validatorCount run now))).
Proof. unfold validationPromise. apply await_counts, executor_counts. Qed.

Lemma engine_rechannel f run now :
  validationPromise verbose validatorCount (rechannel f run) now
  = validationPromise verbose validatorCount run now.
Proof.
  unfold validationPromise. rewrite executor_rechannel. simpl later_turns.
  apply await_rechannel.
Qed.

(** With no rule the executor resolves the promise at once. *)
Lemma engine_idle run now :
  validatorCount = 0 ->
  promise (snd (validationPromise verbose validatorCount run now)) = Fulfilled
  /\ validatorResults (snd (validationPromise verbose validatorCount run now)) = [].
Proof.
  intros ->. unfold validationPromise.
  rewrite await_settled by (destruct verbose; reflexivity).
  destruct verbose; split; reflexivity.
Qed.

(** The first reports made before the ceiling, up to the number of rules,
    are in the engine's list, each at its place and as it was handed
    over. *)
Lemma engine_collects run now i c :
  launch_throw run = None ->
  i < validatorCount ->
  nth_error (reports_by_ceiling run now) i = Some c ->
  nth_error (validatorResults (snd (validationPromise verbose validatorCount run now))) i
  = Some (payload c).
Proof.
  intros Hthrow Hi Hc.
  assert (Hn : 0 < validatorCount) by lia.
  destruct (engine_follows_policy run now Hn Hthrow) as [_ Heq].
  pose proof (wait_outcome validatorCount (now + 10000)%N (later_turns run) now
                (map payload (launch_calls run)) ltac:(lia)) as Hout.
  rewrite <- Heq in Hout. cbn [fst snd] in Hout.
  destruct Hout as [[Hall _] | (_ & _ & ->)].
  - destruct (engine_results_prefix run now) as [rest Hrest].
    destruct (calls_before_prefix (now + 10000)%N (later_turns run) now) as [rest' Hrest'].
    assert (Hnth : nth_error (all_calls run) i = Some c).
    { unfold all_calls. rewrite Hrest', app_assoc.
      rewrite nth_error_app1; [exact Hc |].
      apply nth_error_Some. unfold reports_by_ceiling in Hc. congruence. }
    assert (Hmap : nth_error (map payload (all_calls run)) i = Some (payload c))
      by (rewrite nth_error_map, Hnth; reflexivity).
    rewrite Hrest, nth_error_app1 in Hmap by lia. exact Hmap.
  - unfold arrivals_before. rewrite <- map_app.
    fold (reports_by_ceiling run now). rewrite nth_error_map, Hc. reflexivity.
Qed.

(** With as many reports before the ceiling as there are rules, the list
    holds that many results. *)
Lemma engine_completes run now :
  launch_throw run = None ->
  validatorCount <= length (reports_by_ceiling run now) ->
  validatorCount
  <= length (validatorResults (snd (validationPromise verbose validatorCount run now))).
Proof.
  intros Hthrow Hlen.
  destruct (Nat.eq_dec validatorCount 0) as [Hz | Hnz]; [lia |].
  destruct (engine_follows_policy run now ltac:(lia) Hthrow) as [_ Heq].
  pose proof (wait_outcome validatorCount (now + 10000)%N (later_turns run) now
                (map payload (launch_calls run)) ltac:(lia)) as Hout.
  rewrite <- Heq in Hout. cbn [fst snd] in Hout.
  destruct Hout as [[Hall _] | (_ & Hlt & Hres)]; [exact Hall |].
  rewrite Hres in Hlt. unfold arrivals_before in Hlt.
  rewrite <- map_app, length_map in Hlt.
  unfold reports_by_ceiling in Hlen. lia.
Qed.

End EngineRun.

(* ===================================================================== *)
(** ** Properties of the orchestrator *)
(* ===================================================================== *)

Lemma is_real_issue_spec v b :
  is_real_issue v = Normal b -> real_issue v = b.
Proof.
  unfold is_real_issue, real_issue, has_items, untagged_id.
  destruct (items v) as [l |]; [destruct (0 <? length l); [destruct (id v) |] |];
    intro H; inversion H; reflexivity.
Qed.

Lemma filter_real_spec : forall vs kept,
  filter_real vs = Normal kept -> kept = filter real_issue vs.
Proof.
  induction vs as [| v rest IH]; intros kept H.
  - simpl in H. now inversion H.
  - simpl in H.
    destruct (is_real_issue v) as [b | |] eqn:Hb; try discriminate.
    destruct (filter_real rest) as [kept' | |]; try discriminate.
    inversion H. simpl. rewrite (is_real_issue_spec _ _ Hb), <- (IH kept' eq_refl).
    reflexivity.
Qed.


Lemma run_validators_normal_inv verbose n w tr results tr' :
  run_validators verbose n w tr = (Normal results, tr') ->
  promise (snd (validationPromise verbose n (evaluator w) (clock w))) = Fulfilled
  /\ results = validatorResults (snd (validationPromise verbose n (evaluator w) (clock w))).
Proof.
  unfold run_validators, bind, emit_all, ret, throw, lift.
  destruct (promise _); intro H; inversion H; auto.
Qed.

Ltac bind_inv H :=
  let a := fresh "a" in
  let t := fresh "tr" in
  let H1 := fresh "Hstep" in
  apply bind_normal_inv in H; destruct H as (a & t & H1 & H).

(** A normal completion of the [try] block returns the aggregate of the
    diagnostics and of the engine's results. *)
Lemma try_body_normal_inv verbose w wd mp tr r tr' :
  try_body verbose w wd mp tr = (Normal r, tr') ->
  let results :=
    validatorResults (snd (validationPromise verbose (count_validators (parser_manifest w))
                                             (evaluator w) (clock w))) in
  let diagnostics := collect_errors (cache_errors w) in
  r = mkReport (length (filter real_issue results) =? 0)
               (mkManifestInfo true mp wd)
               (diagnostics ++ results)
               (mkStats (length (diagnostics ++ results)) (length diagnostics)
                        (length (filter real_issue results))).
Proof.
  intros H results diagnostics. unfold try_body in H.
  do 8 bind_inv H.
  apply run_validators_normal_inv in Hstep6. destruct Hstep6 as [_ ->].
  bind_inv H. unfold lift in Hstep6. inversion Hstep6 as [[Hf Ht]].
  apply filter_real_spec in Hf. subst.
  bind_inv H. unfold ret in H. inversion H. reflexivity.
Qed.

Lemma bind_normal {A B} (m : Eff A) (k : A -> Eff B) tr a tr1 :
  m tr = (Normal a, tr1) -> bind m k tr = k a tr1.
Proof. unfold bind. now intros ->. Qed.

Lemma bind_abrupt {A B} (m : Eff A) (k : A -> Eff B) tr e :
  fst (m tr) = Abrupt e -> fst (bind m k tr) = Abrupt e.
Proof. unfold bind. destruct (m tr) as [[a | e' |] tr1]; simpl; congruence. Qed.

Lemma run_unfold o w :
  run_validateManifest o w =
  if negb (existsSync w (workspaceDir_of o w)) then
    (Abrupt (new_Error ("Workspace directory not found: " ++ workspaceDir_of o w)%string), [])
  else if negb (existsSync w (manifestPath_of o w)) then
    (Abrupt (new_Error ("Root manifest not found: " ++ manifestPath_of o w)%string), [])
  else
    match prepare_session (verbose_of o) w (rootManifest_of o)
                          (workspaceDir_of o w) (manifestPath_of o w) [] with
    | (Normal _, tr) =>
        try_catch (try_body (verbose_of o) w (workspaceDir_of o w) (manifestPath_of o w))
                  (catch_block (verbose_of o) (workspaceDir_of o w) (manifestPath_of o w)) tr
    | (Abrupt e, tr) => (Abrupt e, tr)
    | (Unsettled, tr) => (Unsettled, tr)
    end.
Proof.
  unfold run_validateManifest, validateManifest.
  destruct (existsSync w (workspaceDir_of o w)); simpl; [| reflexivity].
  destruct (existsSync w (manifestPath_of o w)); reflexivity.
Qed.

(** A report comes from the end of the [try] block or from the [catch]
    block, after both eager checks and the session set-up have passed. *)
Lemma run_report_cases o w r :
  fst (run_validateManifest o w) = Normal r ->
  existsSync w (workspaceDir_of o w) = true
  /\ existsSync w (manifestPath_of o w) = true
  /\ fst (prepare_session (verbose_of o) w (rootManifest_of o)
                          (workspaceDir_of o w) (manifestPath_of o w) []) = Normal tt
  /\ (fst (try_body (verbose_of o) w (workspaceDir_of o w) (manifestPath_of o w)
                    (session_trace o w)) = Normal r
      \/ exists message stk,
           fst (try_body (verbose_of o) w (workspaceDir_of o w) (manifestPath_of o w)
                         (session_trace o w)) = Abrupt (ThrownValue message stk)
           /\ r = degenerate_report (verbose_of o) (workspaceDir_of o w) (manifestPath_of o w)
                                    message stk).
Proof.
  rewrite run_unfold. unfold session_trace. fold (verbose_of o). fold (rootManifest_of o).
  destruct (existsSync w (workspaceDir_of o w)); simpl; [| discriminate].
  destruct (existsSync w (manifestPath_of o w)); simpl; [| discriminate].
  destruct (prepare_session _ _ _ _ _ _) as [[[] | e |] tr]; simpl; try discriminate.
  unfold try_catch.
  destruct (try_body _ _ _ _ _) as [[r' | e |] tr']; simpl; try discriminate.
  - intro H. inversion H. auto.
  - destruct e as [| message stk]; simpl; [discriminate |].
    intro H. inversion H. repeat split; auto. right. exists message, stk. auto.
Qed.

Lemma try_body_report verbose w wd mp tr r :
  fst (try_body verbose w wd mp tr) = Normal r ->
  r = mkReport (length (filter real_issue
                   (validatorResults (snd (validationPromise verbose
                      (count_validators (parser_manifest w)) (evaluator w) (clock w))))) =? 0)
               (mkManifestInfo true mp wd)
               (collect_errors (cache_errors w)
                ++ validatorResults (snd (validationPromise verbose
                      (count_validators (parser_manifest w)) (evaluator w) (clock w))))
               (mkStats (length (collect_errors (cache_errors w)
                         ++ validatorResults (snd (validationPromise verbose
                              (count_validators (parser_manifest w)) (evaluator w) (clock w)))))
                        (length (collect_errors (cache_errors w)))
                        (length (filter real_issue
                           (validatorResults (snd (validationPromise verbose
                              (count_validators (parser_manifest w)) (evaluator w) (clock w))))))).
Proof.
  destruct (try_body verbose w wd mp tr) as [c tr'] eqn:H. simpl. intros ->.
  exact (try_body_normal_inv _ _ _ _ _ _ _ H).
Qed.

(** The report of a run that came back with [loaded = true]. *)
Lemma loaded_report o w r :
  fst (run_validateManifest o w) = Normal r ->
  loaded (manifest r) = true ->
  r = mkReport (length (filter real_issue (engine_results o w)) =? 0)
               (mkManifestInfo true (manifestPath_of o w) (workspaceDir_of o w))
               (collect_errors (cache_errors w) ++ engine_results o w)
               (mkStats (length (collect_errors (cache_errors w) ++ engine_results o w))
                        (length (collect_errors (cache_errors w)))
                        (length (filter real_issue (engine_results o w)))).
Proof.
  intros Hrun Hloaded.
  destruct (run_report_cases _ _ _ Hrun) as (_ & _ & _ & [H | (message & stk & _ & ->)]).
  - exact (try_body_report _ _ _ _ _ _ H).
  - discriminate.
Qed.

Lemma filter_none {A} (f : A -> bool) (l : list A) :
  length (filter f l) = 0 <-> forall x, In x l -> f x = false.
Proof.
  induction l as [| a l IH]; simpl.
  - split; [intros _ x [] | reflexivity].
  - destruct (f a) eqn:Ha; simpl.
    + split; [discriminate |]. intro H. rewrite (H a (or_introl eq_refl)) in Ha. discriminate.
    + rewrite IH. split.
      * intros H x [<- | Hx]; auto.
      * intros H x Hx. apply H. now right.
Qed.

Lemma tagged_not_real v : diagnostic_tagged v = true -> real_issue v = false.
Proof.
  unfold diagnostic_tagged, real_issue, untagged_id.
  destruct (id v) as [s |]; [| discriminate].
  intros ->. apply andb_false_r.
Qed.

Lemma filter_untagged_real l :
  filter real_issue (filter (fun v => negb (diagnostic_tagged v)) l) = filter real_issue l.
Proof.
  induction l as [| v l IH]; simpl; [reflexivity |].
  destruct (diagnostic_tagged v) eqn:Ht; simpl.
  - now rewrite (tagged_not_real _ Ht).
  - now rewrite IH.
Qed.

(* ===================================================================== *)
(** ** Traces without rule evaluation *)
(* ===================================================================== *)

Lemma keeps_free_ret {A} (a : A) : keeps_free (ret a).
Proof. intros tr H. exact H. Qed.

Lemma keeps_free_throw {A} e : keeps_free (@throw A e).
Proof. intros tr H. exact H. Qed.

Lemma keeps_free_lift {A} (c : Completion A) : keeps_free (lift c).
Proof. intros tr H. exact H. Qed.

Lemma keeps_free_emit_all evs : evaluation_free evs -> keeps_free (emit_all evs).
Proof. intros He tr H. simpl. apply Forall_app. now split. Qed.

Lemma keeps_free_emit ev : engine_effect ev = false -> keeps_free (emit ev).
Proof. intros He tr H. simpl. apply Forall_app. split; [exact H | now constructor]. Qed.

Lemma keeps_free_bind {A B} (m : Eff A) (k : A -> Eff B) :
  keeps_free m -> (forall a, keeps_free (k a)) -> keeps_free (bind m k).
Proof.
  intros Hm Hk tr H. unfold bind. specialize (Hm tr H).
  destruct (m tr) as [[a | e |] tr1]; simpl in *; [now apply Hk | exact Hm | exact Hm].
Qed.

Lemma keeps_free_call ev answer : engine_effect ev = false -> keeps_free (call ev answer).
Proof.
  intro He. unfold call. apply keeps_free_bind; [now apply keeps_free_emit |].
  intros _. destruct answer; [apply keeps_free_throw | apply keeps_free_ret].
Qed.

Lemma keeps_free_await_call ev answer :
  engine_effect ev = false -> keeps_free (await_call ev answer).
Proof.
  intro He. unfold await_call. apply keeps_free_bind; [now apply keeps_free_emit |].
  intros _. destruct answer as [[e |] |];
    [apply keeps_free_throw | apply keeps_free_lift | apply keeps_free_ret].
Qed.

Lemma keeps_free_log_if verbose line : keeps_free (log_if verbose line).
Proof.
  unfold log_if. destruct verbose; [now apply keeps_free_emit | apply keeps_free_ret].
Qed.

Lemma keeps_free_try_catch {A} (body : Eff A) handler :
  keeps_free body -> (forall e, keeps_free (handler e)) -> keeps_free (try_catch body handler).
Proof.
  intros Hb Hh tr H. unfold try_catch. specialize (Hb tr H).
  destruct (body tr) as [[a | e |] tr1]; simpl in *; [exact Hb | now apply Hh | exact Hb].
Qed.

Lemma keeps_free_run_load w : forall steps, keeps_free (run_load w steps).
Proof.
  induction steps as [| s rest IH]; simpl; [apply keeps_free_ret |].
  apply keeps_free_bind; [now apply keeps_free_await_call | intros _; exact IH].
Qed.

Lemma keeps_free_import_all w p : forall ms, keeps_free (import_all w p ms).
Proof.
  induction ms as [| m rest IH]; simpl; [apply keeps_free_ret |].
  apply keeps_free_bind; [now apply keeps_free_await_call | intros _; exact IH].
Qed.

Lemma keeps_free_prepare_session verbose w root wd mp :
  keeps_free (prepare_session verbose w root wd mp).
Proof.
  unfold prepare_session.
  apply keeps_free_bind; [apply keeps_free_log_if | intros _].
  apply keeps_free_bind.
  { unfold initializeDocHubEnvironment.
    apply keeps_free_bind; [now apply keeps_free_emit | intros _].
    destruct (env_root_manifest w) as [[| c s] |];
      solve [now apply keeps_free_emit | apply keeps_free_ret]. }
  intros _.
  apply keeps_free_bind; [now apply keeps_free_emit | intros _].
  apply keeps_free_bind.
  { unfold getDocHubPath. destruct (find _ _); [apply keeps_free_ret | apply keeps_free_throw]. }
  intros p.
  do 3 (apply keeps_free_bind; [apply keeps_free_log_if | intros _]).
  apply keeps_free_bind; [apply keeps_free_import_all | intros _].
  apply keeps_free_bind; [now apply keeps_free_emit | intros _].
  now apply keeps_free_call.
Qed.

Lemma keeps_free_catch_block verbose wd mp e : keeps_free (catch_block verbose wd mp e).
Proof. destruct e; [apply keeps_free_throw | apply keeps_free_ret]. Qed.

(** With no rule configured the [try] block adds no engine call. *)
Lemma keeps_free_try_body verbose w wd mp :
  count_validators (parser_manifest w) = 0 ->
  keeps_free (try_body verbose w wd mp).
Proof.
  intro Hzero. unfold try_body.
  apply keeps_free_bind; [apply keeps_free_run_load | intros _].
  apply keeps_free_bind; [now apply keeps_free_call | intros _].
  apply keeps_free_bind.
  { unfold manifest_functions.
    destruct (parser_manifest w); [apply keeps_free_ret | apply keeps_free_throw]. }
  intros _.
  apply keeps_free_bind; [now apply keeps_free_call | intros _].
  apply keeps_free_bind; [now apply keeps_free_emit | intros _].
  apply keeps_free_bind; [now apply keeps_free_call | intros _].
  apply keeps_free_bind; [apply keeps_free_log_if | intros _].
  apply keeps_free_bind.
  { rewrite Hzero. unfold run_validators, validationPromise.
    rewrite await_settled by (destruct verbose; reflexivity).
    apply keeps_free_bind.
    - apply keeps_free_emit_all. destruct verbose; simpl; repeat constructor.
    - intros _. destruct verbose; simpl; apply keeps_free_ret. }
  intros results.
  apply keeps_free_bind; [apply keeps_free_lift | intros real].
  apply keeps_free_bind; [apply keeps_free_log_if | intros _].
  apply keeps_free_ret.
Qed.

Lemma keeps_free_validateManifest o w :
  count_validators (parser_manifest w) = 0 ->
  keeps_free (validateManifest o w).
Proof.
  intro Hzero. unfold validateManifest.
  destruct (negb (existsSync w (workspaceDir_of o w))); [apply keeps_free_throw |].
  destruct (negb (existsSync w (manifestPath_of o w))); [apply keeps_free_throw |].
  apply keeps_free_bind; [apply keeps_free_prepare_session | intros _].
  apply keeps_free_try_catch; [now apply keeps_free_try_body | apply keeps_free_catch_block].
Qed.

(* ===================================================================== *)
(** ** Properties of the specification *)
(* ===================================================================== *)

(** C1.  On every return of [validateManifest] through the end of the
    [try] block (the report says [loaded = true]), [success] is true if and
    only if no rule result in the engine's list both has at least one item
    and has an id that does not start with ['$error'].  A result whose id
    carries the tag is not counted in [validationErrors] and cannot make
    [success] false, whatever its items: dropping every tagged result from
    the list changes neither. *)
Theorem C1_success_iff_no_real_issue o w r :
  fst (run_validateManifest o w) = Normal r ->
  loaded (manifest r) = true ->
  (success r = true <->
   forall v, In v (engine_results o w) ->
             ~ (has_items v = true /\ untagged_id v = true))
  /\ validationErrors (stats r)
     = length (filter real_issue
                 (filter (fun v => negb (diagnostic_tagged v)) (engine_results o w)))
  /\ (success r = true <->
      length (filter real_issue
                (filter (fun v => negb (diagnostic_tagged v)) (engine_results o w))) = 0).
Proof.
  intros Hrun Hloaded. rewrite (loaded_report _ _ _ Hrun Hloaded). simpl.
  rewrite filter_untagged_real. repeat split.
  - intros H v Hv [Hi Hu]. apply Nat.eqb_eq in H.
    pose proof (proj1 (filter_none _ _) H v Hv) as Hf.
    unfold real_issue in Hf. rewrite Hi, Hu in Hf. discriminate.
  - intro H. apply Nat.eqb_eq, filter_none. intros v Hv.
    unfold real_issue. destruct (has_items v) eqn:Hi; [| reflexivity].
    destruct (untagged_id v) eqn:Hu; [| reflexivity].
    exfalso. apply (H v Hv). auto.
  - apply Nat.eqb_eq.
  - apply Nat.eqb_eq.
Qed.

(** C6.  On every return of [validateManifest] through the end of the
    [try] block, [problems] is the load-time diagnostics (the values of
    [cache.errors], in the order of its keys; none when [cache.errors] is
    absent) followed by the rule results; [totalIssues] is the length of
    [problems], [loadingErrors] the number of entries of [cache.errors],
    and [validationErrors] the number of rule results with at least one
    item and an untagged id. *)
Theorem C6_problems_and_stats o w r :
  fst (run_validateManifest o w) = Normal r ->
  loaded (manifest r) = true ->
  problems r = map snd (default [] (cache_errors w)) ++ engine_results o w
  /\ (forall key diagnostic,
        In (key, diagnostic) (default [] (cache_errors w)) -> In diagnostic (problems r))
  /\ totalIssues (stats r) = length (problems r)
  /\ loadingErrors (stats r) = length (default [] (cache_errors w))
  /\ validationErrors (stats r)
     = length (filter (fun v => has_items v && untagged_id v) (engine_results o w)).
Proof.
  intros Hrun Hloaded. rewrite (loaded_report _ _ _ Hrun Hloaded). simpl.
  assert (Hc : collect_errors (cache_errors w) = map snd (default [] (cache_errors w)))
    by (unfold collect_errors; now destruct (cache_errors w)).
  rewrite Hc. repeat split.
  - intros key diagnostic Hin. apply in_or_app. left.
    apply in_map_iff. now exists (key, diagnostic).
  - now rewrite length_map.
Qed.

(** C10.  Every report [validateManifest] returns names the same resolved
    manifest: [workspace] is [path.resolve] of the workspace option (the
    working directory by default) and [path] is [path.resolve] of the root
    manifest (['dochub.yaml'] by default) against it; [loaded] is true when
    the report is the one the [try] block returned and false when it is the
    one built by the [catch] block. *)
Theorem C10_manifest_identification o w r :
  fst (run_validateManifest o w) = Normal r ->
  workspace (manifest r) = path_resolve w [default (cwd w) (opt_workspace o)]
  /\ path (manifest r)
     = path_resolve w [path_resolve w [default (cwd w) (opt_workspace o)];
                       default "dochub.yaml" (opt_rootManifest o)]
  /\ ((fst (try_body (verbose_of o) w (workspaceDir_of o w) (manifestPath_of o w)
                     (session_trace o w)) = Normal r
       /\ loaded (manifest r) = true)
      \/ (exists e,
            fst (try_body (verbose_of o) w (workspaceDir_of o w) (manifestPath_of o w)
                          (session_trace o w)) = Abrupt e
            /\ loaded (manifest r) = false)).
Proof.
  intro Hrun.
  destruct (run_report_cases _ _ _ Hrun) as (_ & _ & _ & [H | (message & stk & H & ->)]).
  - rewrite (try_body_report _ _ _ _ _ _ H) at 1 2 4. simpl. repeat split. left. split; auto.
  - simpl. repeat split. right. eauto.
Qed.

(** C3.  With at least one rule and an evaluator whose call returns, the
    engine waits until [n] completions have been reported on the callback
    (it counts reports, whichever rule they are for) or until the timer
    armed for 10000 ms at the start of the evaluation fires, whichever
    comes first, and then resumes: this is the specification's policy
    [wait_all_or_ceiling].  When the wait ends by the timer, fewer than [n]
    results are in the list and the list is exactly what was reported
    before the timer ran: an outstanding rule has no entry. *)
Theorem C3_all_reported_or_ceiling verbose n run now :
  0 < n ->
  launch_throw run = None ->
  promise (snd (validationPromise verbose n run now)) = Fulfilled
  /\ (fst (validationPromise verbose n run now),
      validatorResults (snd (validationPromise verbose n run now)))
     = wait_all_or_ceiling n (now + 10000)%N now
                           (map payload (launch_calls run)) (later_turns run)
  /\ ((n <= length (validatorResults (snd (validationPromise verbose n run now)))
       /\ (now <= fst (validationPromise verbose n run now) <= now + 10000)%N)
      \/ (fst (validationPromise verbose n run now) = (now + 10000)%N
          /\ length (validatorResults (snd (validationPromise verbose n run now))) < n
          /\ validatorResults (snd (validationPromise verbose n run now))
             = map payload (launch_calls run)
               ++ arrivals_before (now + 10000)%N now (later_turns run))).
Proof.
  intros Hn Hthrow.
  destruct (engine_follows_policy verbose n run now Hn Hthrow) as [Hf Heq].
  split; [exact Hf |]. split; [exact Heq |].
  pose proof (wait_outcome n (now + 10000)%N (later_turns run) now
                (map payload (launch_calls run)) ltac:(lia)) as Hout.
  rewrite <- Heq in Hout. simpl in Hout. exact Hout.
Qed.

(** C4.  The evaluator is handed one and the same callback for success and
    for failure, and the engine treats a failed rule like any other.  With
    an evaluator whose call returns: each of the first [n] reports made
    before the ceiling is in the engine's list, at its place and as it was
    handed over, whichever callback it came on and whatever comes before or
    after it; in particular the report of a failed rule, made on the reject
    callback with its [error] set, is in the list with that [error].
    Every result in the list has been counted once, so [n] reports before
    the ceiling, failures included, complete the run.  Moving reports
    between the two callbacks changes nothing in what the engine gives
    back. *)
Theorem C4_single_completion_channel verbose n run now :
  launch_throw run = None ->
  promise (snd (validationPromise verbose n run now)) = Fulfilled
  /\ (forall i c,
        i < n ->
        nth_error (reports_by_ceiling run now) i = Some c ->
        nth_error (validatorResults (snd (validationPromise verbose n run now))) i
        = Some (payload c))
  /\ (forall i c message,
        i < n ->
        nth_error (reports_by_ceiling run now) i = Some c ->
        channel c = RejectCallback ->
        error (payload c) = Some message ->
        exists v,
          nth_error (validatorResults (snd (validationPromise verbose n run now))) i = Some v
          /\ error v = Some message)
  /\ completedCount (snd (validationPromise verbose n run now))
     = length (validatorResults (snd (validationPromise verbose n run now)))
  /\ (n <= length (reports_by_ceiling run now) ->
      n <= length (validatorResults (snd (validationPromise verbose n run now))))
  /\ (forall f,
        validationPromise verbose n (rechannel f run) now
        = validationPromise verbose n run now).
Proof.
  intro Hthrow. repeat split.
  - destruct (Nat.eq_dec n 0) as [Hz | Hnz].
    + now apply engine_idle.
    + now apply engine_follows_policy; [lia |].
  - intros i c Hi Hc. now apply engine_collects.
  - intros i c message Hi Hc _ He. exists (payload c).
    split; [now apply engine_collects | exact He].
  - apply engine_counts.
  - now apply engine_completes.
  - intro f. apply engine_rechannel.
Qed.

(** C5.  With zero rules the promise is resolved by the executor at once:
    the orchestrator resumes at the same clock reading with an empty result
    list, the evaluator has not been called, and no timer has been set.
    So a whole run of [validateManifest] on a manifest with no rule never
    calls the evaluator and never arms a timer. *)
Theorem C5_zero_rules_fast_path verbose run now :
  (fst (validationPromise verbose 0 run now) = now
   /\ promise (snd (validationPromise verbose 0 run now)) = Fulfilled
   /\ validatorResults (snd (validationPromise verbose 0 run now)) = []
   /\ completedCount (snd (validationPromise verbose 0 run now)) = 0
   /\ timer (snd (validationPromise verbose 0 run now)) = None
   /\ ~ In ValidatorsCall (emitted (snd (validationPromise verbose 0 run now)))
   /\ (forall delay,
         ~ In (SetTimeout delay) (emitted (snd (validationPromise verbose 0 run now)))))
  /\ (forall o w,
        count_validators (parser_manifest w) = 0 ->
        engine_results o w = []
        /\ ~ In ValidatorsCall (snd (run_validateManifest o w))
        /\ (forall delay, ~ In (SetTimeout delay) (snd (run_validateManifest o w)))).
Proof.
  assert (Hs : forall v r t, settled (executor v 0 r t engine_init) = true)
    by (intros [] r t; reflexivity).
  split.
  - unfold validationPromise. rewrite await_settled by apply Hs.
    destruct verbose; simpl; repeat split; try reflexivity; intros; intro H;
      repeat (destruct H as [H | H]; try discriminate); exact H.
  - intros o w Hzero.
    pose proof (keeps_free_validateManifest o w Hzero [] (Forall_nil _)) as Hfree.
    fold (run_validateManifest o w) in Hfree.
    unfold evaluation_free in Hfree. rewrite Forall_forall in Hfree.
    repeat split.
    + unfold engine_results, validationPromise. rewrite Hzero.
      rewrite await_settled by apply Hs.
      destruct (default false (opt_verbose o)); reflexivity.
    + intro H. apply Hfree in H. discriminate.
    + intros delay H. apply Hfree in H. discriminate.
Qed.

(** C8.  Results are appended in the order the callback is invoked: from an
    empty list, the i-th entry after a batch of reports is the i-th report;
    and the list the engine hands back is an initial segment of everything
    the evaluator reports, in the order reported, so its i-th entry is the
    i-th rule to have reported.  Nothing reorders the list. *)
Theorem C8_completion_order verbose n run now :
  (forall calls i,
     nth_error (validatorResults
                  (deliver (onValidatorComplete verbose n) (onValidatorComplete verbose n)
                           calls engine_init)) i
     = option_map payload (nth_error calls i))
  /\ (exists rest,
        map payload (all_calls run)
        = validatorResults (snd (validationPromise verbose n run now)) ++ rest)
  /\ (forall i,
        i < length (validatorResults (snd (validationPromise verbose n run now))) ->
        nth_error (validatorResults (snd (validationPromise verbose n run now))) i
        = option_map payload (nth_error (all_calls run) i)).
Proof.
  pose proof (engine_results_prefix verbose n run now) as Hprefix.
  split; [| split; [exact Hprefix |]].
  - intros calls i. rewrite deliver_results. simpl. apply nth_error_map.
  - intros i Hi. destruct Hprefix as [rest Hrest].
    rewrite <- nth_error_map, Hrest. now rewrite nth_error_app1.
Qed.


(* ===================================================================== *)
(** ** Failures inside the [try] block *)
(* ===================================================================== *)

Lemma bind_ends_on {A B} (m : Eff A) (k : A -> Eff B) tr f :
  fst (m tr) = ends_on f -> fst (bind m k tr) = ends_on f.
Proof.
  unfold bind. destruct (m tr) as [[a | e |] tr1]; destruct f; simpl; congruence.
Qed.

Lemma await_call_fails ev f tr : fst (await_call ev (Some f) tr) = ends_on f.
Proof. destruct f; reflexivity. Qed.

Lemma run_load_fail w f : forall steps tr,
  first_failure (parser_step w) steps = Some f ->
  fst (run_load w steps tr) = ends_on f.
Proof.
  induction steps as [| s rest IH]; intros tr H; simpl in *; [discriminate |].
  destruct (parser_step w s) as [f' |] eqn:Hs.
  - inversion H. subst. apply bind_ends_on, await_call_fails.
  - erewrite bind_normal by reflexivity. now apply IH.
Qed.

Lemma run_load_ok w : forall steps tr,
  first_failure (parser_step w) steps = None ->
  exists tr', run_load w steps tr = (Normal tt, tr').
Proof.
  induction steps as [| s rest IH]; intros tr H; simpl in *.
  - now exists tr.
  - destruct (parser_step w s) as [e' |] eqn:Hs; [discriminate |].
    erewrite bind_normal by reflexivity. now apply IH.
Qed.

Lemma run_validators_launch_failure verbose n w tr e :
  0 < n ->
  length (launch_calls (evaluator w)) < n ->
  launch_throw (evaluator w) = Some e ->
  fst (run_validators verbose n w tr) = Abrupt e.
Proof.
  intros Hn Hlen Hthrow. unfold run_validators, validationPromise.
  assert (Hp : promise (executor verbose n (evaluator w) (clock w) engine_init) = Rejected e).
  { unfold executor. destruct (Nat.eqb_spec n 0); [lia |]. rewrite Hthrow.
    unfold reject. rewrite deliver_pending by (simpl; auto). simpl.
    destruct (Nat.leb_spec n (length (launch_calls (evaluator w)))); [lia | reflexivity]. }
  rewrite await_settled by (unfold settled; now rewrite Hp).
  simpl snd. rewrite Hp. reflexivity.
Qed.

(** A failure of loading, entity processing, custom functions, datasets
    or of the evaluator's call with rules outstanding ends the [try] block
    there: with the value thrown, or never when an awaited parser promise
    stays pending. *)
Lemma pipeline_failure_thrown verbose w wd mp f tr :
  pipeline_failure w = Some f ->
  fst (try_body verbose w wd mp tr) = ends_on f.
Proof.
  unfold pipeline_failure, setup_failure, launch_failure, try_body. intro H.
  destruct (first_failure (parser_step w) load_steps) as [f0 |] eqn:Hload.
  { inversion H. subst. apply bind_ends_on. now apply run_load_fail. }
  destruct (run_load_ok w load_steps tr Hload) as [tr1 H1].
  rewrite (bind_normal _ _ _ _ _ H1).
  destruct (entities w) as [e0 |].
  { inversion H. subst. apply bind_ends_on. reflexivity. }
  erewrite bind_normal by reflexivity.
  destruct (parser_manifest w) as [m |] eqn:Hm.
  2:{ inversion H. subst. apply bind_ends_on. reflexivity. }
  erewrite bind_normal by reflexivity.
  destruct (jsonataFunctions w) as [e0 |].
  { inversion H. subst. apply bind_ends_on. reflexivity. }
  erewrite bind_normal by reflexivity.
  erewrite bind_normal by reflexivity.
  destruct (datasetsHelper w) as [e0 |].
  { inversion H. subst. apply bind_ends_on. reflexivity. }
  erewrite bind_normal by reflexivity.
  match goal with
  | |- fst (bind (log_if ?v ?l) _ ?t) = _ =>
      destruct (log_if_run v l t) as [tr2 H2]; rewrite (bind_normal _ _ _ _ _ H2)
  end.
  apply bind_ends_on. cbn [option_map] in H.
  destruct (0 <? count_validators (Some m)) eqn:Hn; cbn [andb] in H; [| discriminate].
  destruct (length (launch_calls (evaluator w)) <? count_validators (Some m)) eqn:Hl;
    [| discriminate].
  apply Nat.ltb_lt in Hn, Hl.
  destruct (launch_throw (evaluator w)) as [e |] eqn:Hthrow; [| discriminate].
  inversion H. subst. cbn [ends_on].
  now apply run_validators_launch_failure.
Qed.

(* ===================================================================== *)
(** ** Concrete instances *)
(* ===================================================================== *)

Lemma C1_witness :
  fst (run_validateManifest default_options sample_world) = Normal sample_report
  /\ loaded (manifest sample_report) = true
  /\ ((success sample_report = true <->
       forall v, In v (engine_results default_options sample_world) ->
                 ~ (has_items v = true /\ untagged_id v = true))
      /\ validationErrors (stats sample_report)
         = length (filter real_issue
                     (filter (fun v => negb (diagnostic_tagged v))
                             (engine_results default_options sample_world)))
      /\ (success sample_report = true <->
          length (filter real_issue
                    (filter (fun v => negb (diagnostic_tagged v))
                            (engine_results default_options sample_world))) = 0)).
Proof.
  split; [reflexivity | split; [reflexivity |]].
  apply (C1_success_iff_no_real_issue default_options sample_world sample_report); reflexivity.
Defined.

Lemma C6_witness :
  fst (run_validateManifest default_options diagnosed_world) = Normal diagnosed_report
  /\ loaded (manifest diagnosed_report) = true
  /\ (problems diagnosed_report
      = map snd (default [] (cache_errors diagnosed_world))
        ++ engine_results default_options diagnosed_world
      /\ (forall key diagnostic,
            In (key, diagnostic) (default [] (cache_errors diagnosed_world)) ->
            In diagnostic (problems diagnosed_report))
      /\ totalIssues (stats diagnosed_report) = length (problems diagnosed_report)
      /\ loadingErrors (stats diagnosed_report)
         = length (default [] (cache_errors diagnosed_world))
      /\ validationErrors (stats diagnosed_report)
         = length (filter (fun v => has_items v && untagged_id v)
                          (engine_results default_options diagnosed_world))).
Proof.
  split; [reflexivity | split; [reflexivity |]].
  apply (C6_problems_and_stats default_options diagnosed_world diagnosed_report); reflexivity.
Defined.

Lemma C10_witness :
  fst (run_validateManifest default_options sample_world) = Normal sample_report
  /\ (workspace (manifest sample_report)
      = path_resolve sample_world [default (cwd sample_world) (opt_workspace default_options)]
      /\ path (manifest sample_report)
         = path_resolve sample_world
             [path_resolve sample_world [default (cwd sample_world) (opt_workspace default_options)];
              default "dochub.yaml" (opt_rootManifest default_options)]
      /\ ((fst (try_body (verbose_of default_options) sample_world
                         (workspaceDir_of default_options sample_world)
                         (manifestPath_of default_options sample_world)
                         (session_trace default_options sample_world)) = Normal sample_report
           /\ loaded (manifest sample_report) = true)
          \/ (exists e,
                fst (try_body (verbose_of default_options) sample_world
                              (workspaceDir_of default_options sample_world)
                              (manifestPath_of default_options sample_world)
                              (session_trace default_options sample_world)) = Abrupt e
                /\ loaded (manifest sample_report) = false))).
Proof.
  split; [reflexivity |].
  apply (C10_manifest_identification default_options sample_world sample_report); reflexivity.
Defined.

Lemma C3_witness :
  0 < 2
  /\ launch_throw hung_run = None
  /\ (promise (snd (validationPromise false 2 hung_run 0%N)) = Fulfilled
      /\ (fst (validationPromise false 2 hung_run 0%N),
          validatorResults (snd (validationPromise false 2 hung_run 0%N)))
         = wait_all_or_ceiling 2 (0 + 10000)%N 0%N
                               (map payload (launch_calls hung_run)) (later_turns hung_run)
      /\ ((2 <= length (validatorResults (snd (validationPromise false 2 hung_run 0%N)))
           /\ (0 <= fst (validationPromise false 2 hung_run 0%N) <= 0 + 10000)%N)
          \/ (fst (validationPromise false 2 hung_run 0%N) = (0 + 10000)%N
              /\ length (validatorResults (snd (validationPromise false 2 hung_run 0%N))) < 2
              /\ validatorResults (snd (validationPromise false 2 hung_run 0%N))
                 = map payload (launch_calls hung_run)
                   ++ arrivals_before (0 + 10000)%N 0%N (later_turns hung_run)))).
Proof.
  split; [lia | split; [reflexivity |]].
  apply (C3_all_reported_or_ceiling false 2 hung_run 0%N); [lia | reflexivity].
Defined.

(** Two rules, the first of which fails: its report, made on the reject
    callback with its [error] set, is the first entry of the list, and the
    second rule's result follows it. *)
Lemma C4_witness :
  launch_throw failing_run = None
  /\ nth_error (reports_by_ceiling failing_run 0%N) 0 = Some (mkCall RejectCallback errored_result)
  /\ error errored_result = Some "expression raised"
  /\ validatorResults (snd (validationPromise false 2 failing_run 0%N))
     = [errored_result; clean_result]
  /\ (promise (snd (validationPromise false 2 failing_run 0%N)) = Fulfilled
      /\ (forall i c,
            i < 2 ->
            nth_error (reports_by_ceiling failing_run 0%N) i = Some c ->
            nth_error (validatorResults (snd (validationPromise false 2 failing_run 0%N))) i
            = Some (payload c))
      /\ (forall i c message,
            i < 2 ->
            nth_error (reports_by_ceiling failing_run 0%N) i = Some c ->
            channel c = RejectCallback ->
            error (payload c) = Some message ->
            exists v,
              nth_error (validatorResults (snd (validationPromise false 2 failing_run 0%N))) i
              = Some v
              /\ error v = Some message)
      /\ completedCount (snd (validationPromise false 2 failing_run 0%N))
         = length (validatorResults (snd (validationPromise false 2 failing_run 0%N)))
      /\ (2 <= length (reports_by_ceiling failing_run 0%N) ->
          2 <= length (validatorResults (snd (validationPromise false 2 failing_run 0%N))))
      /\ (forall f,
            validationPromise false 2 (rechannel f failing_run) 0%N
            = validationPromise false 2 failing_run 0%N)).
Proof.
  split; [reflexivity | split; [reflexivity | split; [reflexivity | split; [reflexivity |]]]].
  apply (C4_single_completion_channel false 2 failing_run 0%N). reflexivity.
Defined.

Lemma C5_witness :
  count_validators (parser_manifest clean_world) = 0
  /\ (engine_results default_options clean_world = []
      /\ ~ In ValidatorsCall (snd (run_validateManifest default_options clean_world))
      /\ (forall delay,
            ~ In (SetTimeout delay) (snd (run_validateManifest default_options clean_world)))).
Proof.
  split; [reflexivity |].
  apply (proj2 (C5_zero_rules_fast_path false quiet_run 0%N) default_options clean_world).
  reflexivity.
Defined.

Lemma C8_witness :
  0 < length (validatorResults (snd (validationPromise false 2 sample_run 0%N)))
  /\ nth_error (validatorResults (snd (validationPromise false 2 sample_run 0%N))) 0
     = option_map payload (nth_error (all_calls sample_run) 0).
Proof.
  assert (H : 0 < length (validatorResults (snd (validationPromise false 2 sample_run 0%N))))
    by (vm_compute; lia).
  split; [exact H |].
  exact (proj2 (proj2 (C8_completion_order false 2 sample_run 0%N)) 0 H).
Defined.

(** C2, at the inputs where the code departs from it.  A parser promise
    rejected without a reason makes the [catch] block itself throw, so
    [validateManifest] rejects instead of returning the degenerate report;
    and an exception thrown by the evaluator's call after both rules have
    reported is dropped, so the run returns an ordinary successful
    report. *)
Theorem C2_catch_block_gaps :
  parser_step rejecting_world StepImportRoot = Some (Throws ThrownNullish)
  /\ fst (run_validateManifest default_options rejecting_world)
     = Abrupt (new_TypeError "Cannot read properties of undefined (reading 'message')")
  /\ launch_throw (evaluator swallowing_world) = Some (new_Error "evaluator crashed")
  /\ (exists r, fst (run_validateManifest default_options swallowing_world) = Normal r
                /\ loaded (manifest r) = true /\ success r = true).
Proof.
  repeat split. eexists. repeat split.
Qed.

(* ===================================================================== *)
(** ** Runs of the model *)
(* ===================================================================== *)


(** One empty result and one with an item under an untagged id: the run
    fails with one validation error. *)
Example success_computation :
  fst (run_validateManifest default_options sample_world) = Normal sample_report
  /\ success sample_report = false
  /\ validationErrors (stats sample_report) = 1.
Proof. repeat split. Qed.

(** A tagged result with items is listed among the problems and leaves the
    run successful. *)
Example diagnostic_exclusion :
  fst (run_validateManifest default_options
         (base_world (Some two_rules)
            (mkRun [mkCall SuccessCallback clean_result;
                    mkCall SuccessCallback tagged_result] None [])))
  = Normal (mkReport true (mkManifestInfo true "/ws/dochub.yaml" "/ws")
                     [clean_result; tagged_result] (mkStats 2 0 0)).
Proof. reflexivity. Qed.

(** The rule declared second reports first: it comes first in the list. *)
Example completion_order_kept :
  problems_of_run
    (run_validateManifest default_options
       (base_world (Some two_rules)
          (mkRun [] None [mkTurn 1%N false [mkCall SuccessCallback failing_result];
                          mkTurn 1%N false [mkCall SuccessCallback clean_result]])))
  = [failing_result; clean_result].
Proof. reflexivity. Qed.

(** One of two rules never reports: the engine resumes at 10000 ms with
    the one result it has, says so when verbose, and the run succeeds. *)
Example timeout_ceiling :
  fst (validationPromise true 2 hung_run 0%N) = 10000%N
  /\ validatorResults (snd (validationPromise true 2 hung_run 0%N)) = [clean_result]
  /\ emitted (snd (validationPromise true 2 hung_run 0%N))
     = [ValidatorsCall;
        ConsoleLog (LogValidatorCompleted (Some "rule.clean") 0);
        SetTimeout 10000%N;
        ConsoleLog (LogTimeoutWarning 1 2)].
Proof. repeat split. Qed.

(** A rule that threw is reported on the reject callback and recorded with
    its [error]; the other rule is collected all the same. *)
Example failed_rule_recorded :
  validatorResults
    (snd (validationPromise false 2
            (mkRun [] None [mkTurn 2%N false [mkCall RejectCallback errored_result];
                            mkTurn 5%N false [mkCall SuccessCallback clean_result]]) 0%N))
  = [errored_result; clean_result]
  /\ error errored_result = Some "expression raised".
Proof. repeat split. Qed.

(** A result with items and no [id] makes the filter throw: the run ends in
    the catch block. *)
Example missing_id_is_critical :
  fst (run_validateManifest default_options
         (base_world (Some two_rules)
            (mkRun [mkCall SuccessCallback clean_result;
                    mkCall SuccessCallback
                      (mkProblem None None (Some [item_at "/x"]) None None)] None [])))
  = Normal (degenerate_report false "/ws" "/ws/dochub.yaml"
              (Some "Cannot read properties of undefined (reading 'startsWith')") None).
Proof. reflexivity. Qed.

(** A missing workspace directory is refused before anything is called. *)
Example missing_workspace :
  run_validateManifest (mkOptions (Some "/nowhere") None None) sample_world
  = (Abrupt (new_Error "Workspace directory not found: /nowhere"), []).
Proof. reflexivity. Qed.

Example missing_root_manifest :
  run_validateManifest (mkOptions None (Some "other.yaml") None) sample_world
  = (Abrupt (new_Error "Root manifest not found: /ws/other.yaml"), []).
Proof. reflexivity. Qed.

(** Exit codes: 0 for a clean run, 1 for rule violations, 2 when the run
    ended in the catch block (its report counts one loading error), 2 for
    an unknown format. *)
Example exit_codes :
  fst (action (mkCliOptions "/ws" "dochub.yaml" "text" true false true None)
              (mkHost clean_world (fun _ _ _ _ _ => "ok") None)) = Normal 0
  /\ fst (action (mkCliOptions "/ws" "dochub.yaml" "JSON" true false true None)
                 (mkHost sample_world (fun _ _ _ _ _ => "{}") None)) = Normal 1
  /\ fst (action (mkCliOptions "/ws" "dochub.yaml" "text" true false true None)
                 (mkHost (base_world None quiet_run) (fun _ _ _ _ _ => "failed") None))
     = Normal 2
  /\ fst (action (mkCliOptions "/ws" "dochub.yaml" "xml" true false true None)
                 (mkHost clean_world (fun _ _ _ _ _ => "ok") None)) = Normal 2.
Proof. repeat split. Qed.

(* ===================================================================== *)
(** ** What a computation adds to the trace *)
(* ===================================================================== *)

Section AddsOnly.

Variable Q : Effect -> Prop.

Lemma adds_only_ret {A} (a : A) : adds_only Q (ret a).
Proof. intro tr. exists []. simpl. now rewrite app_nil_r. Qed.

Lemma adds_only_throw {A} e : adds_only Q (@throw A e).
Proof. intro tr. exists []. simpl. now rewrite app_nil_r. Qed.

Lemma adds_only_lift {A} (c : Completion A) : adds_only Q (lift c).
Proof. intro tr. exists []. simpl. now rewrite app_nil_r. Qed.

Lemma adds_only_emit ev : Q ev -> adds_only Q (emit ev).
Proof. intros H tr. exists [ev]. simpl. auto. Qed.

Lemma adds_only_emit_all evs : Forall Q evs -> adds_only Q (emit_all evs).
Proof. intros H tr. exists evs. simpl. auto. Qed.

(** The continuation matters only for the values the first part returns. *)
Lemma adds_only_bind_returned {A B} (m : Eff A) (k : A -> Eff B) :
  adds_only Q m ->
  (forall tr a, fst (m tr) = Normal a -> adds_only Q (k a)) ->
  adds_only Q (bind m k).
Proof.
  intros Hm Hk tr. destruct (Hm tr) as (ext1 & E1 & F1). unfold bind.
  destruct (m tr) as [[a | e |] tr1] eqn:Em; simpl in *; subst tr1.
  - assert (Ha : fst (m tr) = Normal a) by now rewrite Em.
    destruct (Hk tr a Ha (tr ++ ext1)) as (ext2 & E2 & F2).
    exists (ext1 ++ ext2). rewrite E2, app_assoc. split; [reflexivity |].
    apply Forall_app. auto.
  - exists ext1. auto.
  - exists ext1. auto.
Qed.

Lemma adds_only_bind {A B} (m : Eff A) (k : A -> Eff B) :
  adds_only Q m -> (forall a, adds_only Q (k a)) -> adds_only Q (bind m k).
Proof. intros Hm Hk. apply adds_only_bind_returned; auto. Qed.

Lemma adds_only_call ev answer : Q ev -> adds_only Q (call ev answer).
Proof.
  intro H. unfold call. apply adds_only_bind; [now apply adds_only_emit |].
  intros _. destruct answer; [apply adds_only_throw | apply adds_only_ret].
Qed.

Lemma adds_only_await_call ev answer : Q ev -> adds_only Q (await_call ev answer).
Proof.
  intro H. unfold await_call. apply adds_only_bind; [now apply adds_only_emit |].
  intros _. destruct answer as [[e |] |];
    [apply adds_only_throw | apply adds_only_lift | apply adds_only_ret].
Qed.

Lemma adds_only_log_if verbose line :
  (verbose = true -> Q (ConsoleLog line)) -> adds_only Q (log_if verbose line).
Proof.
  intro H. unfold log_if. destruct verbose; [apply adds_only_emit; auto | apply adds_only_ret].
Qed.

Lemma adds_only_try_catch {A} (body : Eff A) handler :
  adds_only Q body -> (forall e, adds_only Q (handler e)) ->
  adds_only Q (try_catch body handler).
Proof.
  intros Hb Hh tr. destruct (Hb tr) as (ext1 & E1 & F1). unfold try_catch.
  destruct (body tr) as [[a | e |] tr1]; simpl in *; subst tr1.
  - exists ext1. auto.
  - destruct (Hh e (tr ++ ext1)) as (ext2 & E2 & F2).
    exists (ext1 ++ ext2). rewrite E2, app_assoc. split; [reflexivity |].
    apply Forall_app. auto.
  - exists ext1. auto.
Qed.

Lemma adds_only_run_load w : forall steps,
  (forall s, Q (ParserCall s)) -> adds_only Q (run_load w steps).
Proof.
  intros steps H. induction steps as [| s rest IH]; simpl; [apply adds_only_ret |].
  apply adds_only_bind; [now apply adds_only_await_call | intros _; exact IH].
Qed.

Lemma adds_only_import_all w p : forall ms,
  (forall m, Q (ImportModule p m)) -> adds_only Q (import_all w p ms).
Proof.
  intros ms H. induction ms as [| m rest IH]; simpl; [apply adds_only_ret |].
  apply adds_only_bind; [now apply adds_only_await_call | intros _; exact IH].
Qed.

Lemma adds_only_catch_block verbose wd mp e : adds_only Q (catch_block verbose wd mp e).
Proof. destruct e; [apply adds_only_throw | apply adds_only_ret]. Qed.

End AddsOnly.

Lemma adds_only_weaken {A} (Q Q' : Effect -> Prop) (m : Eff A) :
  (forall ev, Q ev -> Q' ev) -> adds_only Q m -> adds_only Q' m.
Proof.
  intros H Hm tr. destruct (Hm tr) as (ext & E & F). exists ext. split; [exact E |].
  eapply Forall_impl; eauto.
Qed.

(** *** What the engine emits *)

Section EngineEmits.

Variable verbose : bool.
Variable validatorCount : nat.

Local Abbreviation good := (Forall (pipeline_event verbose)).

Lemma resolve_emitted st : emitted (resolve st) = emitted st.
Proof. unfold resolve. now destruct (promise st). Qed.

Lemma reject_emitted e st : emitted (reject e st) = emitted st.
Proof. unfold reject. now destruct (promise st). Qed.

Lemma engine_log_good line st : good (emitted st) -> good (emitted (engine_log verbose line st)).
Proof.
  intro H. unfold engine_log, engine_emit. destruct verbose eqn:Hv; [| exact H].
  simpl. apply Forall_app. split; [exact H |]. constructor; [reflexivity | constructor].
Qed.

Lemma callback_good validator st :
  good (emitted st) -> good (emitted (onValidatorComplete verbose validatorCount validator st)).
Proof.
  intro H. unfold onValidatorComplete.
  destruct (validatorCount <=? _); [rewrite resolve_emitted |]; now apply engine_log_good.
Qed.

Lemma deliver_good calls : forall st,
  good (emitted st) ->
  good (emitted (deliver (onValidatorComplete verbose validatorCount)
                         (onValidatorComplete verbose validatorCount) calls st)).
Proof.
  induction calls as [| c calls IH]; intros st H; [exact H |].
  rewrite deliver_cons. apply IH. now apply callback_good.
Qed.

Lemma onTimeout_good st :
  good (emitted st) -> good (emitted (onTimeout verbose validatorCount st)).
Proof.
  intro H. unfold onTimeout. destruct (completedCount st <? validatorCount); [| exact H].
  rewrite resolve_emitted. now apply engine_log_good.
Qed.

Lemma await_good : forall queue now st,
  good (emitted st) -> good (emitted (snd (await verbose validatorCount now queue st))).
Proof.
  induction queue as [| [t task] rest IH]; intros now st H.
  - rewrite await_nil. exact H.
  - simpl. destruct (settled st); [exact H |]. apply IH.
    destruct task; simpl; [now apply deliver_good | now apply onTimeout_good].
Qed.

Lemma executor_good run now :
  good (emitted (executor verbose validatorCount run now engine_init)).
Proof.
  unfold executor. destruct (validatorCount =? 0).
  - rewrite resolve_emitted. apply engine_log_good. constructor.
  - assert (H : good (emitted (deliver (onValidatorComplete verbose validatorCount)
                                      (onValidatorComplete verbose validatorCount)
                                      (launch_calls run) (engine_emit ValidatorsCall engine_init)))).
    { apply deliver_good. simpl. repeat constructor. }
    destruct (launch_throw run).
    + now rewrite reject_emitted.
    + unfold setTimeout. simpl. apply Forall_app. split; [exact H |].
      repeat constructor.
Qed.

(** The engine calls the evaluator, arms a timer of 10000 ms, and writes to
    the console only when verbose. *)
Lemma validationPromise_good run now :
  good (emitted (snd (validationPromise verbose validatorCount run now))).
Proof. unfold validationPromise. apply await_good, executor_good. Qed.

End EngineEmits.

Lemma adds_only_run_validators verbose n w :
  adds_only (pipeline_event verbose) (run_validators verbose n w).
Proof.
  unfold run_validators. apply adds_only_bind.
  - apply adds_only_emit_all, validationPromise_good.
  - intros _. destruct (promise _);
      [apply adds_only_lift | apply adds_only_ret | apply adds_only_throw].
Qed.

Lemma adds_only_try_body verbose w wd mp :
  adds_only (pipeline_event verbose) (try_body verbose w wd mp).
Proof.
  unfold try_body.
  apply adds_only_bind; [apply adds_only_run_load; intro; exact I | intros _].
  apply adds_only_bind; [apply adds_only_call; exact I | intros _].
  apply adds_only_bind.
  { unfold manifest_functions.
    destruct (parser_manifest w); [apply adds_only_ret | apply adds_only_throw]. }
  intros _.
  apply adds_only_bind; [apply adds_only_call; exact I | intros _].
  apply adds_only_bind; [apply adds_only_emit; exact I | intros _].
  apply adds_only_bind; [apply adds_only_call; exact I | intros _].
  apply adds_only_bind; [apply adds_only_log_if; auto | intros _].
  apply adds_only_bind; [apply adds_only_run_validators | intros results].
  apply adds_only_bind; [apply adds_only_lift | intros real].
  apply adds_only_bind; [apply adds_only_log_if; auto | intros _].
  apply adds_only_ret.
Qed.

Lemma getDocHubPath_normal_inv w tr p :
  fst (getDocHubPath w tr) = Normal p -> find (existsSync w) (possiblePaths w) = Some p.
Proof.
  unfold getDocHubPath, ret, throw. destruct (find _ _); simpl; intro H; now inversion H.
Qed.

Lemma adds_only_prepare_session verbose w root wd mp :
  adds_only (session_event verbose w root wd) (prepare_session verbose w root wd mp).
Proof.
  unfold prepare_session.
  apply adds_only_bind; [apply adds_only_log_if; auto | intros _].
  apply adds_only_bind.
  { unfold initializeDocHubEnvironment.
    apply adds_only_bind; [apply adds_only_emit; reflexivity | intros _].
    destruct (env_root_manifest w) as [[| c s] |];
      solve [apply adds_only_emit; simpl; auto | apply adds_only_ret]. }
  intros _.
  apply adds_only_bind; [apply adds_only_emit; simpl; auto | intros _].
  apply adds_only_bind_returned.
  { unfold getDocHubPath. destruct (find _ _); [apply adds_only_ret | apply adds_only_throw]. }
  intros tr p Hp. apply getDocHubPath_normal_inv in Hp.
  do 3 (apply adds_only_bind; [apply adds_only_log_if; auto | intros _]).
  apply adds_only_bind; [apply adds_only_import_all; intro; exact Hp | intros _].
  apply adds_only_bind; [apply adds_only_emit; exact I | intros _].
  apply adds_only_call. exact I.
Qed.

(* ===================================================================== *)
(** ** The trace of a run *)
(* ===================================================================== *)

(** The set-up part and the pipeline part of a trace. *)
Lemma trace_split o w :
  exists setup pipeline,
    snd (run_validateManifest o w) = setup ++ pipeline
    /\ Forall (session_event (verbose_of o) w (rootManifest_of o) (workspaceDir_of o w)) setup
    /\ Forall (pipeline_event (verbose_of o)) pipeline.
Proof.
  unfold run_validateManifest, validateManifest.
  destruct (negb (existsSync w (workspaceDir_of o w))); [exists [], []; simpl; auto |].
  destruct (negb (existsSync w (manifestPath_of o w))); [exists [], []; simpl; auto |].
  fold (verbose_of o). fold (rootManifest_of o).
  destruct (adds_only_prepare_session (verbose_of o) w (rootManifest_of o)
              (workspaceDir_of o w) (manifestPath_of o w) []) as (setup & Es & Fs).
  unfold bind.
  destruct (prepare_session _ _ _ _ _ _) as [[u | e |] tr1]; simpl in Es; subst tr1.
  - assert (Ht : adds_only (pipeline_event (verbose_of o))
                   (try_catch (try_body (verbose_of o) w (workspaceDir_of o w) (manifestPath_of o w))
                              (catch_block (verbose_of o) (workspaceDir_of o w)
                                           (manifestPath_of o w)))).
    { apply adds_only_try_catch; [apply adds_only_try_body | intro; apply adds_only_catch_block]. }
    destruct (Ht setup) as (pipeline & Ep & Fp).
    exists setup, pipeline. auto.
  - exists setup, []. simpl. rewrite app_nil_r. auto.
  - exists setup, []. simpl. rewrite app_nil_r. auto.
Qed.

(** X1.  The trace of every run splits in two: first the effects of the
    session set-up (globals set to the resolved workspace, the environment
    variable, the imports, the parser configuration, the clearing of the
    error cache), then those of the [try] block (parser, entities, custom
    functions, datasets, evaluator, a timer of 10000 ms).  No set-up call
    comes after a pipeline call; in particular the error cache is cleared
    before anything is loaded. *)
Theorem X1_setup_precedes_pipeline o w :
  exists setup pipeline,
    snd (run_validateManifest o w) = setup ++ pipeline
    /\ Forall (session_event (verbose_of o) w (rootManifest_of o) (workspaceDir_of o w)) setup
    /\ Forall (pipeline_event (verbose_of o)) pipeline.
Proof.
  destruct (trace_split o w) as (setup & pipeline & E & Fs & Fp).
  exists setup, pipeline. repeat split; assumption.
Qed.

(** X2.  Without [verbose] the orchestrator writes nothing to the console,
    however the run ends. *)
Theorem X2_quiet_without_verbose o w :
  verbose_of o = false ->
  forall line, ~ In (ConsoleLog line) (snd (run_validateManifest o w)).
Proof.
  intros Hq line Hin.
  destruct (trace_split o w) as (setup & pipeline & E & Fs & Fp).
  rewrite E in Hin. apply in_app_or in Hin. rewrite Forall_forall in Fs, Fp.
  destruct Hin as [H | H]; [apply Fs in H | apply Fp in H]; simpl in H; congruence.
Qed.

(** X3.  Every module a run imports is imported from one and the same
    DocHub directory: the first of the three candidates of [getDocHubPath]
    that exists. *)
Theorem X3_imports_from_found_dochub o w p m :
  In (ImportModule p m) (snd (run_validateManifest o w)) ->
  find (existsSync w) (possiblePaths w) = Some p
  /\ In p (possiblePaths w)
  /\ existsSync w p = true.
Proof.
  intro Hin.
  destruct (trace_split o w) as (setup & pipeline & E & Fs & Fp).
  rewrite E in Hin. apply in_app_or in Hin. rewrite Forall_forall in Fs, Fp.
  destruct Hin as [H | H]; [apply Fs in H | apply Fp in H; contradiction].
  change (find (existsSync w) (possiblePaths w) = Some p) in H.
  split; [exact H |]. exact (find_some _ _ H).
Qed.

Lemma root_manifest_env_app before l1 l2 :
  root_manifest_env before (l1 ++ l2) = root_manifest_env (root_manifest_env before l1) l2.
Proof. unfold root_manifest_env. apply fold_left_app. Qed.

Lemma root_manifest_env_untouched l : forall before,
  Forall (fun ev => is_env_write ev = false) l -> root_manifest_env before l = before.
Proof.
  induction l as [| ev l IH]; intros before H; [reflexivity |].
  inversion H as [| ? ? Hev Hl]; subst. unfold root_manifest_env in *. simpl.
  destruct ev; try discriminate; apply IH; assumption.
Qed.

Lemma log_if_ext verbose line tr :
  exists ext, log_if verbose line tr = (Normal tt, tr ++ ext).
Proof.
  unfold log_if, emit, ret. destruct verbose; [now exists [ConsoleLog line] |].
  exists []. now rewrite app_nil_r.
Qed.

Lemma initialize_ext w wd tr :
  exists ext, initializeDocHubEnvironment w wd tr = (Normal tt, tr ++ ext).
Proof.
  unfold initializeDocHubEnvironment, bind, emit, ret.
  destruct (env_root_manifest w) as [[| c s] |]; simpl.
  - exists [SetGlobals (path_resolve w [wd]); SetEnvRootManifest "dochub.yaml"].
    now rewrite <- app_assoc.
  - now exists [SetGlobals (path_resolve w [wd])].
  - exists [SetGlobals (path_resolve w [wd]); SetEnvRootManifest "dochub.yaml"].
    now rewrite <- app_assoc.
Qed.

(** The session set-up writes the root manifest option to the environment
    and nothing overwrites it afterwards. *)
Lemma prepare_session_env verbose w root wd mp tr :
  exists pre tail,
    snd (prepare_session verbose w root wd mp tr) = (tr ++ pre) ++ SetEnvRootManifest root :: tail
    /\ Forall (fun ev => is_env_write ev = false) tail.
Proof.
  unfold prepare_session.
  destruct (log_if_ext verbose LogBuiltinMetamodel tr) as (e1 & H1).
  rewrite (bind_normal _ _ _ _ _ H1).
  destruct (initialize_ext w wd (tr ++ e1)) as (e2 & H2).
  rewrite (bind_normal _ _ _ _ _ H2).
  erewrite bind_normal by reflexivity.
  match goal with
  | |- context [snd (?m ?t)] =>
      assert (Hm : adds_only (fun ev => is_env_write ev = false) m)
  end.
  { apply adds_only_bind.
    { unfold getDocHubPath. destruct (find _ _); [apply adds_only_ret | apply adds_only_throw]. }
    intros p.
    do 3 (apply adds_only_bind; [apply adds_only_log_if; auto | intros _]).
    apply adds_only_bind; [apply adds_only_import_all; auto | intros _].
    apply adds_only_bind; [apply adds_only_emit; auto | intros _].
    apply adds_only_call. reflexivity. }
  destruct (Hm (((tr ++ e1) ++ e2) ++ [SetEnvRootManifest root])) as (tail & Et & Ft).
  exists (e1 ++ e2), tail. rewrite Et. split; [| exact Ft].
  now rewrite <- !app_assoc.
Qed.

(** X4.  Once both eager checks have passed, the run leaves
    [process.env.VUE_APP_DOCHUB_ROOT_MANIFEST] set to the root manifest
    option as given (the relative name, not the resolved path), whatever
    the variable held before and however the run ends. *)
Theorem X4_root_manifest_env o w :
  existsSync w (workspaceDir_of o w) = true ->
  existsSync w (manifestPath_of o w) = true ->
  root_manifest_env (env_root_manifest w) (snd (run_validateManifest o w))
  = Some (default "dochub.yaml" (opt_rootManifest o)).
Proof.
  intros Hw Hm. unfold run_validateManifest, validateManifest. rewrite Hw, Hm. simpl.
  destruct (prepare_session_env (default false (opt_verbose o)) w
              (default "dochub.yaml" (opt_rootManifest o))
              (workspaceDir_of o w) (manifestPath_of o w) []) as (pre & tail & Es & Ft).
  assert (Hend : forall rest,
            Forall (fun ev => is_env_write ev = false) rest ->
            root_manifest_env (env_root_manifest w)
              ((([] ++ pre) ++ SetEnvRootManifest (default "dochub.yaml" (opt_rootManifest o))
                 :: tail) ++ rest)
            = Some (default "dochub.yaml" (opt_rootManifest o))).
  { intros rest Fr. rewrite root_manifest_env_app.
    rewrite (root_manifest_env_untouched rest) by exact Fr.
    rewrite root_manifest_env_app. unfold root_manifest_env at 1. simpl fold_left.
    fold (root_manifest_env (Some (default "dochub.yaml" (opt_rootManifest o))) tail).
    now apply root_manifest_env_untouched. }
  unfold bind.
  destruct (prepare_session _ _ _ _ _ _) as [[u | e |] tr1]; simpl in Es; subst tr1.
  - assert (Ht : adds_only (fun ev => is_env_write ev = false)
                   (try_catch (try_body (default false (opt_verbose o)) w
                                        (workspaceDir_of o w) (manifestPath_of o w))
                              (catch_block (default false (opt_verbose o))
                                           (workspaceDir_of o w) (manifestPath_of o w)))).
    { apply adds_only_weaken with (Q := pipeline_event (default false (opt_verbose o))).
      - intros ev. destruct ev; simpl; auto; contradiction.
      - apply adds_only_try_catch; [apply adds_only_try_body | intro; apply adds_only_catch_block]. }
    destruct (Ht (pre ++ SetEnvRootManifest (default "dochub.yaml" (opt_rootManifest o)) :: tail))
      as (rest & Er & Fr).
    simpl. simpl in Er. rewrite Er. now apply (Hend rest).
  - simpl. rewrite <- (app_nil_r (pre ++ _)). now apply (Hend []).
  - simpl. rewrite <- (app_nil_r (pre ++ _)). now apply (Hend []).
Qed.

(* ===================================================================== *)
(** ** How a run completes *)
(* ===================================================================== *)

Lemma import_all_fst w p : forall ms tr,
  fst (import_all w p ms tr)
  = match first_import_failure (import_module w p) ms with
    | Some f => ends_on f
    | None => Normal tt
    end.
Proof.
  induction ms as [| m rest IH]; intro tr; simpl; [reflexivity |].
  destruct (import_module w p m) as [f |] eqn:Hm.
  - apply bind_ends_on, await_call_fails.
  - erewrite bind_normal by reflexivity. apply IH.
Qed.

Lemma prepare_session_fst verbose w root wd mp tr :
  fst (prepare_session verbose w root wd mp tr)
  = match session_failure w with
    | Some f => ends_on f
    | None => Normal tt
    end.
Proof.
  unfold prepare_session, session_failure.
  destruct (log_if_ext verbose LogBuiltinMetamodel tr) as (e1 & H1).
  rewrite (bind_normal _ _ _ _ _ H1).
  destruct (initialize_ext w wd (tr ++ e1)) as (e2 & H2).
  rewrite (bind_normal _ _ _ _ _ H2).
  erewrite bind_normal by reflexivity.
  unfold getDocHubPath.
  destruct (find (existsSync w) (possiblePaths w)) as [p |].
  - erewrite bind_normal by reflexivity.
    do 3 (match goal with
          | |- fst (bind (log_if ?v ?l) _ ?t) = _ =>
              let ext := fresh "ext" in
              let H := fresh "H" in
              destruct (log_if_ext v l t) as (ext & H); rewrite (bind_normal _ _ _ _ _ H)
          end).
    match goal with
    | |- fst (bind (import_all w p imported_modules) _ ?t) = _ =>
        pose proof (import_all_fst w p imported_modules t) as Hi
    end.
    destruct (first_import_failure (import_module w p) imported_modules) as [f |].
    + now apply bind_ends_on.
    + match goal with
      | |- fst (bind (import_all w p imported_modules) _ ?t) = _ =>
          destruct (import_all w p imported_modules t) as [[[] | e |] tr'] eqn:Hrun
      end; cbn [fst] in Hi; try discriminate.
      rewrite (bind_normal _ _ _ _ _ Hrun).
      erewrite bind_normal by reflexivity.
      unfold call, bind, emit, throw, ret. now destruct (errorClear w).
  - apply bind_abrupt. reflexivity.
Qed.

Section EngineCore.

Variables v1 v2 : bool.
Variable n : nat.

Lemma engine_log_core v line st : engine_core (engine_log v line st) = engine_core st.
Proof. unfold engine_log. now destruct v. Qed.

Lemma resolve_core st1 st2 :
  engine_core st1 = engine_core st2 -> engine_core (resolve st1) = engine_core (resolve st2).
Proof.
  unfold engine_core. intro H. inversion H as [[Hr Hc Hp Ht]].
  unfold resolve. rewrite Hp. destruct (promise st2) eqn:E; simpl; congruence.
Qed.

Lemma reject_core e st1 st2 :
  engine_core st1 = engine_core st2 -> engine_core (reject e st1) = engine_core (reject e st2).
Proof.
  unfold engine_core. intro H. inversion H as [[Hr Hc Hp Ht]].
  unfold reject. rewrite Hp. destruct (promise st2) eqn:E; simpl; congruence.
Qed.

Lemma core_count st1 st2 :
  engine_core st1 = engine_core st2 -> completedCount st1 = completedCount st2.
Proof. unfold engine_core. intro H. now inversion H. Qed.

Lemma callback_core p st1 st2 :
  engine_core st1 = engine_core st2 ->
  engine_core (onValidatorComplete v1 n p st1) = engine_core (onValidatorComplete v2 n p st2).
Proof.
  intro H. unfold onValidatorComplete.
  assert (Hl : engine_core
                 (engine_log v1 (LogValidatorCompleted (id p) (issues_found p))
                    (mkEngine (validatorResults st1 ++ [p]) (S (completedCount st1))
                              (promise st1) (timer st1) (emitted st1)))
               = engine_core
                   (engine_log v2 (LogValidatorCompleted (id p) (issues_found p))
                      (mkEngine (validatorResults st2 ++ [p]) (S (completedCount st2))
                                (promise st2) (timer st2) (emitted st2)))).
  { rewrite !engine_log_core. unfold engine_core in *. inversion H. simpl. congruence. }
  rewrite (core_count _ _ Hl).
  destruct (n <=? _); [now apply resolve_core | exact Hl].
Qed.

Lemma deliver_core calls : forall st1 st2,
  engine_core st1 = engine_core st2 ->
  engine_core (deliver (onValidatorComplete v1 n) (onValidatorComplete v1 n) calls st1)
  = engine_core (deliver (onValidatorComplete v2 n) (onValidatorComplete v2 n) calls st2).
Proof.
  induction calls as [| c calls IH]; intros st1 st2 H; [exact H |].
  rewrite !deliver_cons. apply IH. now apply callback_core.
Qed.

Lemma onTimeout_core st1 st2 :
  engine_core st1 = engine_core st2 ->
  engine_core (onTimeout v1 n st1) = engine_core (onTimeout v2 n st2).
Proof.
  intro H. unfold onTimeout. rewrite (core_count _ _ H).
  destruct (completedCount st2 <? n); [| exact H].
  apply resolve_core. now rewrite !engine_log_core.
Qed.

Lemma settled_core st1 st2 :
  engine_core st1 = engine_core st2 -> settled st1 = settled st2.
Proof. unfold engine_core, settled. intro H. inversion H as [[Hr Hc Hp Ht]]. now rewrite Hp. Qed.

Lemma await_core : forall queue now st1 st2,
  engine_core st1 = engine_core st2 ->
  fst (await v1 n now queue st1) = fst (await v2 n now queue st2)
  /\ engine_core (snd (await v1 n now queue st1)) = engine_core (snd (await v2 n now queue st2)).
Proof.
  induction queue as [| [t task] rest IH]; intros now st1 st2 H.
  - rewrite !await_nil. auto.
  - simpl. rewrite (settled_core _ _ H). destruct (settled st2); [auto |].
    apply IH. destruct task; simpl; [now apply deliver_core | now apply onTimeout_core].
Qed.

Lemma executor_core run now :
  engine_core (executor v1 n run now engine_init) = engine_core (executor v2 n run now engine_init).
Proof.
  unfold executor. destruct (n =? 0).
  - apply resolve_core. now rewrite !engine_log_core.
  - assert (H : engine_core (deliver (onValidatorComplete v1 n) (onValidatorComplete v1 n)
                                     (launch_calls run) (engine_emit ValidatorsCall engine_init))
                = engine_core (deliver (onValidatorComplete v2 n) (onValidatorComplete v2 n)
                                       (launch_calls run) (engine_emit ValidatorsCall engine_init)))
      by now apply deliver_core.
    destruct (launch_throw run); [now apply reject_core |].
    unfold engine_core in *. inversion H. unfold setTimeout. simpl. congruence.
Qed.

(** Verbosity changes what the engine prints and nothing else. *)
Lemma validationPromise_core run now :
  fst (validationPromise v1 n run now) = fst (validationPromise v2 n run now)
  /\ engine_core (snd (validationPromise v1 n run now))
     = engine_core (snd (validationPromise v2 n run now)).
Proof.
  unfold validationPromise. pose proof (executor_core run now) as H.
  assert (Ht : timer (executor v1 n run now engine_init) = timer (executor v2 n run now engine_init))
    by (unfold engine_core in H; now inversion H).
  rewrite Ht. now apply await_core.
Qed.

End EngineCore.

Lemma results_of_verbose v1 v2 w : results_of v1 w = results_of v2 w.
Proof.
  unfold results_of.
  destruct (validationPromise_core v1 v2 (count_validators (parser_manifest w))
              (evaluator w) (clock w)) as [_ H].
  unfold engine_core in H. now inversion H.
Qed.

(** Unless the evaluator's call throws with rules outstanding, the awaited
    promise is fulfilled. *)
Lemma engine_fulfilled verbose n run now :
  (if (0 <? n) && (length (launch_calls run) <? n) then launch_throw run else None) = None ->
  promise (snd (validationPromise verbose n run now)) = Fulfilled.
Proof.
  intro H. unfold validationPromise.
  destruct (Nat.eq_dec n 0) as [-> | Hn].
  - rewrite await_settled by (destruct verbose; reflexivity). now destruct verbose.
  - destruct (Nat.ltb_spec 0 n) as [Hpos |]; [| lia]. simpl in H.
    destruct (Nat.ltb_spec (length (launch_calls run)) n) as [Hlt | Hge].
    + destruct (executor_launched verbose n run now Hpos H) as (Hres & Hcnt & Htm & Hpr).
      destruct (Nat.leb_spec n (length (launch_calls run))); [lia |].
      rewrite Htm.
      apply (await_follows_policy verbose n (now + SAFETY_TIMEOUT)%N (later_turns run) now
               _ Hpr); [lia | rewrite Hres, length_map; lia].
    + assert (Hp : promise (executor verbose n run now engine_init) = Fulfilled).
      { unfold executor. destruct (Nat.eqb_spec n 0); [lia |].
        assert (Hd : promise (deliver (onValidatorComplete verbose n)
                                      (onValidatorComplete verbose n) (launch_calls run)
                                      (engine_emit ValidatorsCall engine_init)) = Fulfilled).
        { rewrite deliver_pending by (simpl; auto). simpl.
          destruct (Nat.leb_spec n (length (launch_calls run))); [reflexivity | lia]. }
        destruct (launch_throw run); unfold reject, setTimeout; simpl; now rewrite ?Hd. }
      rewrite await_settled by (now apply settled_fulfilled). exact Hp.
Qed.

Lemma run_validators_fulfilled verbose n w tr :
  promise (snd (validationPromise verbose n (evaluator w) (clock w))) = Fulfilled ->
  run_validators verbose n w tr
  = (Normal (validatorResults (snd (validationPromise verbose n (evaluator w) (clock w)))),
     tr ++ emitted (snd (validationPromise verbose n (evaluator w) (clock w)))).
Proof.
  intro H. unfold run_validators, bind, emit_all, ret. simpl. now rewrite H.
Qed.

Lemma try_body_fst verbose w wd mp tr :
  fst (try_body verbose w wd mp tr) = try_outcome verbose w wd mp.
Proof.
  unfold try_outcome.
  destruct (pipeline_failure w) as [e |] eqn:Hfail.
  { now apply pipeline_failure_thrown. }
  unfold pipeline_failure, setup_failure in Hfail. unfold try_body.
  destruct (first_failure (parser_step w) load_steps) eqn:Hload; [discriminate |].
  destruct (run_load_ok w load_steps tr Hload) as [tr1 H1].
  rewrite (bind_normal _ _ _ _ _ H1).
  destruct (entities w); [discriminate |].
  erewrite bind_normal by reflexivity.
  destruct (parser_manifest w) as [m |] eqn:Hm; [| discriminate].
  erewrite bind_normal by reflexivity.
  destruct (jsonataFunctions w); [discriminate |].
  erewrite bind_normal by reflexivity.
  erewrite bind_normal by reflexivity.
  destruct (datasetsHelper w); [discriminate |].
  erewrite bind_normal by reflexivity.
  match goal with
  | |- fst (bind (log_if ?v ?l) _ ?t) = _ =>
      destruct (log_if_ext v l t) as (ext & Hl); rewrite (bind_normal _ _ _ _ _ Hl)
  end.
  unfold launch_failure in Hfail. rewrite Hm in Hfail. cbn [option_map] in Hfail.
  assert (Hlaunch : (if (0 <? count_validators (Some m))
                        && (length (launch_calls (evaluator w)) <? count_validators (Some m))
                     then launch_throw (evaluator w) else None) = None).
  { destruct (_ && _); [| reflexivity].
    destruct (launch_throw (evaluator w)); [discriminate | reflexivity]. }
  pose proof (engine_fulfilled verbose _ _ (clock w) Hlaunch) as Hful.
  unfold results_of. rewrite Hm.
  rewrite (bind_normal _ _ _ _ _ (run_validators_fulfilled verbose _ w _ Hful)).
  destruct (filter_real _) as [real | e |]; [| apply bind_abrupt; reflexivity | reflexivity].
  erewrite bind_normal by reflexivity.
  match goal with
  | |- fst (bind (log_if ?v ?l) _ ?t) = _ =>
      destruct (log_if_ext v l t) as (ext' & Hl'); rewrite (bind_normal _ _ _ _ _ Hl')
  end.
  reflexivity.
Qed.

(** The completion of a run, read off the world without its trace. *)
Lemma run_fst o w : fst (run_validateManifest o w) = outcome o w.
Proof.
  rewrite run_unfold. unfold outcome.
  destruct (negb (existsSync w (workspaceDir_of o w))); [reflexivity |].
  destruct (negb (existsSync w (manifestPath_of o w))); [reflexivity |].
  pose proof (prepare_session_fst (verbose_of o) w (rootManifest_of o)
                (workspaceDir_of o w) (manifestPath_of o w) []) as Hp.
  destruct (prepare_session _ _ _ _ _ _) as [[[] | e |] tr]; simpl in Hp;
    destruct (session_failure w) as [[e' |] |]; try discriminate;
    [| now inversion Hp | reflexivity].
  unfold try_catch.
  pose proof (try_body_fst (verbose_of o) w (workspaceDir_of o w) (manifestPath_of o w) tr) as Ht.
  destruct (try_body _ _ _ _ _) as [[r | e |] tr']; simpl in Ht; rewrite <- Ht; simpl;
    [reflexivity | | reflexivity].
  destruct e; reflexivity.
Qed.

(** X5.  The [verbose] option changes what is printed, not what is found:
    a run with and without it completes the same way, returns the same
    report when the [try] block returns, and on the catch branch the
    reports differ only in the [stack] of the synthetic problem, which the
    quiet run leaves undefined. *)
Theorem X5_verbosity_does_not_change_the_verdict ws rm w :
  fst (run_validateManifest (mkOptions ws rm (Some false)) w)
  = match fst (run_validateManifest (mkOptions ws rm (Some true)) w) with
    | Normal r => Normal (without_critical_stack r)
    | other => other
    end.
Proof.
  rewrite !run_fst. unfold outcome.
  change (workspaceDir_of (mkOptions ws rm (Some false)) w)
    with (workspaceDir_of (mkOptions ws rm (Some true)) w).
  change (manifestPath_of (mkOptions ws rm (Some false)) w)
    with (manifestPath_of (mkOptions ws rm (Some true)) w).
  destruct (negb (existsSync w _)); [reflexivity |].
  destruct (negb (existsSync w _)); [reflexivity |].
  destruct (session_failure w) as [[e |] |]; [reflexivity | reflexivity |].
  unfold try_outcome. rewrite (results_of_verbose false true).
  destruct (pipeline_failure w) as [[[| message stk] |] |]; try reflexivity.
  destruct (filter_real _) as [real | [| message stk] |]; reflexivity.
Qed.

Lemma is_real_issue_abrupt v e :
  is_real_issue v = Abrupt e -> e = new_TypeError STARTSWITH_ON_UNDEFINED.
Proof.
  unfold is_real_issue.
  destruct (items v) as [l |]; [destruct (0 <? length l); [destruct (id v) |] |];
    intro H; now inversion H.
Qed.


(** A result with items and without [id] anywhere in the list makes the
    filter throw. *)
Lemma filter_real_missing_id : forall vs v,
  In v vs -> has_items v = true -> id v = None ->
  filter_real vs = Abrupt (new_TypeError STARTSWITH_ON_UNDEFINED).
Proof.
  induction vs as [| a rest IH]; intros v Hin Hi Hid; [contradiction |].
  simpl. destruct Hin as [-> | Hin].
  - unfold is_real_issue. unfold has_items in Hi.
    destruct (items v) as [l |]; [| discriminate]. now rewrite Hi, Hid.
  - destruct (is_real_issue a) as [b | e |] eqn:Ha.
    + now rewrite (IH v Hin Hi Hid).
    + now rewrite (is_real_issue_abrupt _ _ Ha).
    + unfold is_real_issue in Ha.
      destruct (items a) as [l |]; [destruct (0 <? length l); [destruct (id a) |] |];
        discriminate.
Qed.

(** X6.  When the set-up and the pipeline go through but some rule result
    in the engine's list has items and no [id], the run ends in the catch
    block: the filter's [v.id.startsWith] throws, and the report is the
    degenerate one carrying that [TypeError], whatever the other results
    are. *)
Theorem X6_result_without_id_is_critical o w v :
  existsSync w (workspaceDir_of o w) = true ->
  existsSync w (manifestPath_of o w) = true ->
  session_failure w = None ->
  pipeline_failure w = None ->
  In v (engine_results o w) ->
  has_items v = true ->
  id v = None ->
  fst (run_validateManifest o w)
  = Normal (degenerate_report (verbose_of o) (workspaceDir_of o w) (manifestPath_of o w)
              (Some STARTSWITH_ON_UNDEFINED)
              (Some ("TypeError: " ++ STARTSWITH_ON_UNDEFINED)%string)).
Proof.
  intros Hw Hm Hs Hp Hin Hi Hid. rewrite run_fst. unfold outcome.
  rewrite Hw, Hm, Hs. simpl. unfold try_outcome. rewrite Hp.
  change (results_of (verbose_of o) w) with (engine_results o w).
  now rewrite (filter_real_missing_id _ v Hin Hi Hid).
Qed.

Lemma adds_only_try_body_after_setup_failure verbose w wd mp e :
  setup_failure w = Some e ->
  adds_only (fun ev => engine_effect ev = false) (try_body verbose w wd mp).
Proof.
  unfold setup_failure, try_body. intro H.
  destruct (first_failure (parser_step w) load_steps) as [e0 |] eqn:Hload.
  { apply adds_only_bind_returned; [apply adds_only_run_load; reflexivity |].
    intros tr a Ha. rewrite (run_load_fail w e0 load_steps tr Hload) in Ha.
    destruct e0; discriminate. }
  apply adds_only_bind; [apply adds_only_run_load; reflexivity | intros _].
  destruct (entities w) as [e0 |].
  { apply adds_only_bind_returned; [apply adds_only_call; reflexivity |].
    intros tr a Ha. discriminate. }
  apply adds_only_bind; [apply adds_only_call; reflexivity | intros _].
  destruct (parser_manifest w) as [m |].
  2:{ apply adds_only_bind_returned; [apply adds_only_throw |]. intros tr a Ha. discriminate. }
  apply adds_only_bind; [apply adds_only_ret | intros _].
  destruct (jsonataFunctions w) as [e0 |].
  { apply adds_only_bind_returned; [apply adds_only_call; reflexivity |].
    intros tr a Ha. discriminate. }
  apply adds_only_bind; [apply adds_only_call; reflexivity | intros _].
  apply adds_only_bind; [apply adds_only_emit; reflexivity | intros _].
  destruct (datasetsHelper w) as [e0 |]; [| simpl in H; discriminate].
  apply adds_only_bind_returned; [apply adds_only_call; reflexivity |].
  intros tr a Ha. discriminate.
Qed.

(** X7.  When loading, entity processing, the custom-function set-up or
    dataset building fails, the pipeline stops there: the rule evaluator is
    never called and no timer is armed. *)
Theorem X7_no_evaluation_after_setup_failure o w e :
  setup_failure w = Some e ->
  ~ In ValidatorsCall (snd (run_validateManifest o w))
  /\ (forall delay, ~ In (SetTimeout delay) (snd (run_validateManifest o w))).
Proof.
  intro Hfail.
  assert (Hfree : Forall (fun ev => engine_effect ev = false) (snd (run_validateManifest o w))).
  { unfold run_validateManifest, validateManifest.
    destruct (negb (existsSync w (workspaceDir_of o w))); [constructor |].
    destruct (negb (existsSync w (manifestPath_of o w))); [constructor |].
    assert (Hall : adds_only (fun ev => engine_effect ev = false)
              (bind (prepare_session (default false (opt_verbose o)) w
                       (default "dochub.yaml" (opt_rootManifest o))
                       (workspaceDir_of o w) (manifestPath_of o w))
                    (fun _ => try_catch
                       (try_body (default false (opt_verbose o)) w
                                 (workspaceDir_of o w) (manifestPath_of o w))
                       (catch_block (default false (opt_verbose o))
                                    (workspaceDir_of o w) (manifestPath_of o w))))).
    { apply adds_only_bind.
      - eapply adds_only_weaken; [| apply adds_only_prepare_session].
        intros ev. destruct ev; simpl; auto; contradiction.
      - intros _. apply adds_only_try_catch.
        + now apply adds_only_try_body_after_setup_failure with (e := e).
        + intro. apply adds_only_catch_block. }
    destruct (Hall []) as (ext & E & F). rewrite E. exact F. }
  rewrite Forall_forall in Hfree. split.
  - intro H. apply Hfree in H. discriminate.
  - intros delay H. apply Hfree in H. discriminate.
Qed.

(** X8.  Every report [validateManifest] returns, from either branch,
    keeps its counters consistent: [totalIssues] is the length of
    [problems], [loadingErrors] and [validationErrors] together do not
    exceed it, a successful report is a loaded one with no validation
    error, and a report that is not loaded is the failed one-problem report
    with stats 1, 1, 0. *)
Theorem X8_report_invariants o w r :
  fst (run_validateManifest o w) = Normal r ->
  totalIssues (stats r) = length (problems r)
  /\ loadingErrors (stats r) + validationErrors (stats r) <= totalIssues (stats r)
  /\ (success r = true -> loaded (manifest r) = true /\ validationErrors (stats r) = 0)
  /\ (loaded (manifest r) = false ->
      success r = false /\ stats r = mkStats 1 1 0 /\ length (problems r) = 1).
Proof.
  intro Hrun.
  destruct (run_report_cases _ _ _ Hrun) as (_ & _ & _ & [H | (message & stk & _ & ->)]).
  - rewrite (try_body_report _ _ _ _ _ _ H). simpl. repeat split.
    + rewrite length_app. pose proof (filter_length_le real_issue
        (validatorResults (snd (validationPromise (verbose_of o)
           (count_validators (parser_manifest w)) (evaluator w) (clock w))))). lia.
    + now apply Nat.eqb_eq.
    + discriminate.
    + discriminate.
    + discriminate.
  - simpl. repeat split; try discriminate; lia.
Qed.

(* ===================================================================== *)
(** ** Input checks and exit codes *)
(* ===================================================================== *)










(** An awaited parser promise that stays pending: [validateManifest] never
    settles, and the action never exits. *)
Example pending_load :
  fst (run_validateManifest default_options pending_world) = Unsettled
  /\ fst (action text_to_console (console_host pending_world)) = Unsettled.
Proof. split; reflexivity. Qed.

(** An output option that is the empty string is falsy: the report is
    printed and nothing is written. *)
Example empty_output_is_printed :
  snd (action (mkCliOptions "/ws" "dochub.yaml" "text" true false true (Some ""))
              (mkHost clean_world (fun _ _ _ _ _ => "report")
                      (Some (new_Error "ENOENT: no such file or directory, open ''"))))
  = map Orchestrator (snd (run_validateManifest
                             (mkOptions (Some "/ws") (Some "dochub.yaml") (Some false))
                             clean_world))
    ++ [ConsolePrint "report"]
  /\ fst (action (mkCliOptions "/ws" "dochub.yaml" "text" true false true (Some ""))
                 (mkHost clean_world (fun _ _ _ _ _ => "report")
                         (Some (new_Error "ENOENT: no such file or directory, open ''"))))
     = Normal 0.
Proof. split; reflexivity. Qed.

(** A result reported from a timer of 10000 ms that the evaluator armed
    during its call is collected: that timer runs ahead of the safety
    timer.  A turn due at the same instant from any other source comes
    after it and is lost. *)
Example photo_finish :
  validationPromise false 2 photo_finish_run 0%N
  = (10000%N,
     mkEngine [clean_result; failing_result] 2 Fulfilled (Some 10000%N)
              [ValidatorsCall; SetTimeout 10000%N])
  /\ validatorResults
       (snd (validationPromise false 2
               (mkRun [mkCall SuccessCallback clean_result] None
                      [mkTurn 10000%N false [mkCall SuccessCallback failing_result]]) 0%N))
     = [clean_result].
Proof. split; reflexivity. Qed.

(* ===================================================================== *)
(** ** The action and the report *)
(* ===================================================================== *)

(** X9.  For a run that returned through the end of the [try] block and
    whose output was printed or written, the exit code is 0 exactly when no
    rule result has items under an untagged id, whatever [cache.errors]
    holds: load-time diagnostics alone never fail a run.  With such a
    result the code is 2 when [cache.errors] has an entry and 1 when it
    has none or is absent. *)
Theorem X9_exit_code_of_a_loaded_run o h r :
  known_format (cli_format o) = true ->
  truthy (cli_output o) = false \/ writeFileSync h = None ->
  fst (run_validateManifest (orchestrator_options o) (world h)) = Normal r ->
  loaded (manifest r) = true ->
  fst (action o h)
  = Normal (if length (filter real_issue (engine_results (orchestrator_options o) (world h))) =? 0
            then 0
            else match cache_errors (world h) with
                 | Some (_ :: _) => 2
                 | _ => 1
                 end).
Proof.
  intros Hk Hout Hrun Hloaded.
  pose proof (loaded_report _ _ _ Hrun Hloaded) as Hr.
  unfold action. rewrite Hk. simpl.
  change (mkOptions (Some (cli_workspace o)) (Some (cli_root o)) (Some (cli_verbose o)))
    with (orchestrator_options o).
  destruct (run_validateManifest (orchestrator_options o) (world h)) as [[r' | e |] evs];
    simpl in Hrun; inversion Hrun; subst r'.
  assert (Hexit : exit_code r
                  = if length (filter real_issue
                                 (engine_results (orchestrator_options o) (world h))) =? 0
                    then 0
                    else match cache_errors (world h) with
                         | Some (_ :: _) => 2
                         | _ => 1
                         end).
  { rewrite Hr at 1. unfold exit_code. simpl.
    destruct (_ =? 0); [reflexivity |].
    unfold collect_errors. now destruct (cache_errors (world h)) as [[| entry entries] |]. }
  unfold emit_and_exit.
  destruct (truthy (cli_output o)); [| simpl; now rewrite Hexit].
  destruct Hout as [Hout | Hout]; [discriminate |]. rewrite Hout. simpl. now rewrite Hexit.
Qed.

(** X10.  A run that ended in the [catch] block of [validateManifest] exits
    with 2: its report counts one loading error. *)
Theorem X10_critical_error_exits_with_2 o h r :
  known_format (cli_format o) = true ->
  writeFileSync h <> Some ThrownNullish ->
  fst (run_validateManifest (orchestrator_options o) (world h)) = Normal r ->
  loaded (manifest r) = false ->
  fst (action o h) = Normal 2.
Proof.
  intros Hk Hw Hrun Hloaded.
  destruct (run_report_cases _ _ _ Hrun) as (_ & _ & _ & [H | (message & stk & _ & Hr)]).
  { rewrite (try_body_report _ _ _ _ _ _ H) in Hloaded. discriminate. }
  unfold action. rewrite Hk. simpl.
  change (mkOptions (Some (cli_workspace o)) (Some (cli_root o)) (Some (cli_verbose o)))
    with (orchestrator_options o).
  destruct (run_validateManifest (orchestrator_options o) (world h)) as [[r' | e |] evs];
    simpl in Hrun; inversion Hrun; subst r'.
  unfold emit_and_exit. rewrite Hr.
  destruct (truthy (cli_output o)); [| reflexivity].
  destruct (writeFileSync h) as [[| m s] |]; [congruence | reflexivity | reflexivity].
Qed.

(** X11.  When [validateManifest] throws (a missing workspace, a missing
    root manifest, DocHub not found) and [--verbose] is not given, the
    action exits with 2 without a word: the console is still silenced when
    the [catch] block calls [console.error], and nothing is printed or
    written. *)
Theorem X11_fatal_error_is_silent o h message stk :
  known_format (cli_format o) = true ->
  cli_verbose o = false ->
  fst (run_validateManifest (orchestrator_options o) (world h))
  = Abrupt (ThrownValue message stk) ->
  fst (action o h) = Normal 2
  /\ Forall (fun ev => is_user_output ev = false) (snd (action o h)).
Proof.
  intros Hk Hq Hrun. unfold action. rewrite Hk. simpl.
  change (mkOptions (Some (cli_workspace o)) (Some (cli_root o)) (Some (cli_verbose o)))
    with (orchestrator_options o).
  destruct (run_validateManifest (orchestrator_options o) (world h)) as [[r' | e |] evs];
    simpl in Hrun; inversion Hrun; subst.
  unfold fatal. rewrite Hq. simpl. split; [reflexivity |].
  apply Forall_forall. intros ev Hin. apply in_map_iff in Hin.
  destruct Hin as (x & <- & _). reflexivity.
Qed.

(* ===================================================================== *)
(** ** The formatter *)
(* ===================================================================== *)

Lemma shown_as_real v b :
  is_real_issue v = Normal b -> shown_problem v = b.
Proof.
  unfold is_real_issue, shown_problem, no_items, truthy, default, DIAGNOSTIC_TAG.
  assert (Hempty : String.prefix "$error" EmptyString = false) by reflexivity.
  set (tagged := String.prefix "$error") in *. clearbody tagged.
  destruct (items v) as [[| i l] |]; simpl.
  - intro H. inversion H. now destruct (_ && _).
  - destruct (id v) as [s |]; [| discriminate].
    intro H. inversion H. rewrite andb_false_r.
    destruct s as [| c s]; simpl.
    + now rewrite Hempty.
    + now destruct (tagged (String c s)).
  - intro H. inversion H. now destruct (_ && _).
Qed.

Lemma filter_shown_as_real : forall vs kept,
  filter_real vs = Normal kept -> filter shown_problem vs = filter real_issue vs.
Proof.
  induction vs as [| v rest IH]; intros kept H; [reflexivity |].
  simpl in H.
  destruct (is_real_issue v) as [b | |] eqn:Hb; try discriminate.
  destruct (filter_real rest) as [kept' | |]; try discriminate.
  simpl. rewrite (shown_as_real _ _ Hb), (is_real_issue_spec _ _ Hb), (IH kept' eq_refl).
  reflexivity.
Qed.

Lemma loaded_run_filter o w r :
  fst (run_validateManifest o w) = Normal r ->
  loaded (manifest r) = true ->
  exists kept, filter_real (engine_results o w) = Normal kept.
Proof.
  rewrite run_fst. unfold outcome.
  destruct (negb (existsSync w _)); [discriminate |].
  destruct (negb (existsSync w _)); [discriminate |].
  destruct (session_failure w) as [[e |] |]; [discriminate | discriminate |].
  unfold try_outcome. change (results_of (verbose_of o) w) with (engine_results o w).
  destruct (pipeline_failure w) as [[[| m s] |] |]; simpl.
  - discriminate.
  - intros H Hl. inversion H. subst. discriminate.
  - discriminate.
  - destruct (filter_real (engine_results o w)) as [kept | [| m s] |]; simpl.
    + intros _ _. now exists kept.
    + discriminate.
    + intros H Hl. inversion H. subst. discriminate.
    + discriminate.
Qed.

(** The formatter's filter keeps a problem exactly when it has at least one
    item and its id does not start with ['$error']; the clause on [error]
    never decides. *)
Lemma shown_problem_spec p :
  shown_problem p = has_items p && negb (diagnostic_tagged p).
Proof.
  unfold shown_problem, has_items, diagnostic_tagged, no_items, truthy, default, DIAGNOSTIC_TAG.
  assert (Hempty : String.prefix "$error" EmptyString = false) by reflexivity.
  set (tagged := String.prefix "$error") in *. clearbody tagged.
  destruct (id p) as [[| c s] |]; cbn [andb].
  - rewrite Hempty. destruct (items p) as [[| i l] |]; simpl;
      try reflexivity; now rewrite andb_false_r.
  - destruct (tagged (String c s)); simpl.
    + now rewrite andb_false_r.
    + destruct (items p) as [[| i l] |]; simpl; try reflexivity; now rewrite andb_false_r.
  - destruct (items p) as [[| i l] |]; simpl; try reflexivity; now rewrite andb_false_r.
Qed.

Lemma filter_shown_spec l :
  filter shown_problem l = filter (fun p => has_items p && negb (diagnostic_tagged p)) l.
Proof. apply filter_ext. intro p. apply shown_problem_spec. Qed.

(** X12.  For a report returned through the end of the [try] block, the
    text formatter lists the entries of [cache.errors] that have at least
    one item and an id not starting with ['$error'], followed by the rule
    results counted in [stats.validationErrors].  So the number in
    "Found N validation issue(s)", a line of the output whenever something
    is listed, is [validationErrors] plus the number of such entries. *)
Theorem X12_listed_problems_against_the_count (chalk : Chalk) (color verbose : bool) o w r :
  fst (run_validateManifest o w) = Normal r ->
  loaded (manifest r) = true ->
  filter shown_problem (problems r)
  = filter (fun p => has_items p && negb (diagnostic_tagged p))
           (map snd (default [] (cache_errors w)))
    ++ filter real_issue (engine_results o w)
  /\ length (filter shown_problem (problems r))
     = length (filter (fun p => has_items p && negb (diagnostic_tagged p))
                      (map snd (default [] (cache_errors w))))
       + validationErrors (stats r)
  /\ (0 < length (filter shown_problem (problems r)) ->
      In ((if color then chalk else plain) BoldRed
            ("Found "
             ++ show_nat (length (filter (fun p => has_items p && negb (diagnostic_tagged p))
                                         (map snd (default [] (cache_errors w))))
                          + validationErrors (stats r))
             ++ " validation issue(s):")%string)
         (text_lines chalk r color verbose)).
Proof.
  intros Hrun Hloaded.
  destruct (loaded_run_filter _ _ _ Hrun Hloaded) as [kept Hkept].
  assert (Hlist : filter shown_problem (problems r)
                  = filter (fun p => has_items p && negb (diagnostic_tagged p))
                           (map snd (default [] (cache_errors w)))
                    ++ filter real_issue (engine_results o w)).
  { rewrite (loaded_report _ _ _ Hrun Hloaded). simpl.
    rewrite filter_app, (filter_shown_as_real _ _ Hkept), filter_shown_spec.
    unfold collect_errors. now destruct (cache_errors w). }
  assert (Hcount : length (filter shown_problem (problems r))
                   = length (filter (fun p => has_items p && negb (diagnostic_tagged p))
                                    (map snd (default [] (cache_errors w))))
                     + validationErrors (stats r)).
  { rewrite Hlist, length_app. f_equal.
    rewrite (loaded_report _ _ _ Hrun Hloaded). reflexivity. }
  split; [exact Hlist |]. split; [exact Hcount |].
  intro Hpos. rewrite <- Hcount. unfold text_lines.
  apply Nat.ltb_lt in Hpos. rewrite Hpos.
  apply in_or_app. right. apply in_or_app. right. apply in_or_app. right.
  apply in_or_app. right. apply in_or_app. left. apply in_or_app. left.
  left. reflexivity.
Qed.

(** X13.  The text rendering of a report built by the [catch] block never
    shows what went wrong: its only problem has no items, so the filter
    drops it, and the output is the header, "Failed to load manifest", the
    path and the verdict, the same for every error message and stack,
    verbose or not. *)
Theorem X13_text_hides_the_critical_error chalk o w r color verbose :
  fst (run_validateManifest o w) = Normal r ->
  loaded (manifest r) = false ->
  text_lines chalk r color verbose
  = [EmptyString;
     (if color then chalk else plain) Bold "DocHub Architecture Validation";
     (if color then chalk else plain) Gray (repeat_string "=" 50);
     EmptyString;
     ((if color then chalk else plain) Red "✗" ++ " Failed to load manifest")%string;
     (if color then chalk else plain) Gray ("  Path: " ++ manifestPath_of o w)%string;
     EmptyString;
     (if color then chalk else plain) Gray (repeat_string "=" 50);
     (if color then chalk else plain) RedBold "✗ Validation FAILED";
     EmptyString].
Proof.
  intros Hrun Hloaded.
  destruct (run_report_cases _ _ _ Hrun) as (_ & _ & _ & [H | (message & stk & _ & ->)]).
  { rewrite (try_body_report _ _ _ _ _ _ H) in Hloaded. discriminate. }
  reflexivity.
Qed.

(** X15.  The action and the formatter lower-case the format in the same
    way: for every format the action accepts, [format] renders JSON when
    the lower-cased format is ['json'] and text when it is ['text']; the
    formatter's [default] branch is never reached with an unknown
    format. *)
Theorem X15_accepted_format_dispatch chalk stringify r f color verbose pretty :
  known_format f = true ->
  (toLowerCase f = "json"
   /\ format_result chalk stringify r f color verbose pretty = formatJSON stringify r pretty)
  \/ (toLowerCase f = "text"
      /\ format_result chalk stringify r f color verbose pretty
         = formatText chalk r color verbose).
Proof.
  unfold known_format, format_result. simpl. intro H.
  destruct (String.eqb_spec (toLowerCase f) "json") as [Hj | Hj].
  - left. auto.
  - right. destruct (String.eqb_spec (toLowerCase f) "text") as [Ht | Ht]; [auto |].
    simpl in H. discriminate.
Qed.

(* ===================================================================== *)
(** ** Further concrete instances *)
(* ===================================================================== *)

Lemma X2_witness :
  verbose_of default_options = false
  /\ (forall line, ~ In (ConsoleLog line) (snd (run_validateManifest default_options sample_world))).
Proof.
  split; [reflexivity |].
  apply (X2_quiet_without_verbose default_options sample_world). reflexivity.
Defined.

Lemma X3_witness :
  In (ImportModule "/app/src/../dochub" ModParser)
     (snd (run_validateManifest default_options sample_world))
  /\ (find (existsSync sample_world) (possiblePaths sample_world) = Some "/app/src/../dochub"
      /\ In "/app/src/../dochub" (possiblePaths sample_world)
      /\ existsSync sample_world "/app/src/../dochub" = true).
Proof.
  assert (H : In (ImportModule "/app/src/../dochub" ModParser)
                 (snd (run_validateManifest default_options sample_world)))
    by (vm_compute; do 3 right; left; reflexivity).
  split; [exact H |].
  exact (X3_imports_from_found_dochub default_options sample_world _ _ H).
Defined.

Lemma X4_witness :
  existsSync sample_world (workspaceDir_of (mkOptions None (Some "dochub.yaml") None) sample_world)
  = true
  /\ existsSync sample_world
       (manifestPath_of (mkOptions None (Some "dochub.yaml") None) sample_world) = true
  /\ root_manifest_env (env_root_manifest sample_world)
       (snd (run_validateManifest (mkOptions None (Some "dochub.yaml") None) sample_world))
     = Some (default "dochub.yaml" (opt_rootManifest (mkOptions None (Some "dochub.yaml") None))).
Proof.
  split; [reflexivity | split; [reflexivity |]].
  apply (X4_root_manifest_env (mkOptions None (Some "dochub.yaml") None) sample_world);
    reflexivity.
Defined.

Lemma X6_witness :
  existsSync nameless_world (workspaceDir_of default_options nameless_world) = true
  /\ existsSync nameless_world (manifestPath_of default_options nameless_world) = true
  /\ session_failure nameless_world = None
  /\ pipeline_failure nameless_world = None
  /\ In nameless_result (engine_results default_options nameless_world)
  /\ has_items nameless_result = true
  /\ id nameless_result = None
  /\ fst (run_validateManifest default_options nameless_world)
     = Normal (degenerate_report (verbose_of default_options)
                 (workspaceDir_of default_options nameless_world)
                 (manifestPath_of default_options nameless_world)
                 (Some STARTSWITH_ON_UNDEFINED)
                 (Some ("TypeError: " ++ STARTSWITH_ON_UNDEFINED)%string)).
Proof.
  assert (Hin : In nameless_result (engine_results default_options nameless_world))
    by (vm_compute; right; left; reflexivity).
  repeat (split; [reflexivity |]).
  split; [exact Hin |].
  repeat (split; [reflexivity |]).
  apply (X6_result_without_id_is_critical default_options nameless_world nameless_result);
    solve [reflexivity | exact Hin].
Defined.

Lemma X7_witness :
  setup_failure entities_failing_world = Some (Throws (new_Error "entities: bad manifest"))
  /\ (~ In ValidatorsCall (snd (run_validateManifest default_options entities_failing_world))
      /\ (forall delay,
            ~ In (SetTimeout delay)
                 (snd (run_validateManifest default_options entities_failing_world)))).
Proof.
  split; [reflexivity |].
  apply (X7_no_evaluation_after_setup_failure default_options entities_failing_world
           (Throws (new_Error "entities: bad manifest"))).
  reflexivity.
Defined.

Lemma X8_witness :
  fst (run_validateManifest default_options sample_world) = Normal sample_report
  /\ (totalIssues (stats sample_report) = length (problems sample_report)
      /\ loadingErrors (stats sample_report) + validationErrors (stats sample_report)
         <= totalIssues (stats sample_report)
      /\ (success sample_report = true ->
          loaded (manifest sample_report) = true /\ validationErrors (stats sample_report) = 0)
      /\ (loaded (manifest sample_report) = false ->
          success sample_report = false /\ stats sample_report = mkStats 1 1 0
          /\ length (problems sample_report) = 1)).
Proof.
  split; [reflexivity |].
  apply (X8_report_invariants default_options sample_world sample_report). reflexivity.
Defined.

(** Entries in [cache.errors]: with a rule violation the exit code is 2,
    written to a file or not; without one it is 0. *)
Lemma X9_witness :
  known_format (cli_format text_to_file) = true
  /\ (truthy (cli_output text_to_file) = false
      \/ writeFileSync (console_host diagnosed_world) = None)
  /\ fst (run_validateManifest (orchestrator_options text_to_file)
                               (world (console_host diagnosed_world))) = Normal diagnosed_report
  /\ loaded (manifest diagnosed_report) = true
  /\ cache_errors (world (console_host diagnosed_world)) = Some sample_errors
  /\ fst (action text_to_file (console_host diagnosed_world)) = Normal 2
  /\ fst (action text_to_console (console_host diagnosed_clean_world)) = Normal 0.
Proof.
  split; [reflexivity | split; [right; reflexivity | split; [reflexivity | split; [reflexivity |]]]].
  split; [reflexivity | split].
  - exact (X9_exit_code_of_a_loaded_run text_to_file (console_host diagnosed_world)
             diagnosed_report eq_refl (or_intror eq_refl) eq_refl eq_refl).
  - exact (X9_exit_code_of_a_loaded_run text_to_console (console_host diagnosed_clean_world)
             diagnosed_clean_report eq_refl (or_introl eq_refl) eq_refl eq_refl).
Defined.

Lemma X10_witness :
  known_format (cli_format text_to_console) = true
  /\ writeFileSync (console_host broken_world) <> Some ThrownNullish
  /\ fst (run_validateManifest (orchestrator_options text_to_console)
                               (world (console_host broken_world))) = Normal broken_report
  /\ loaded (manifest broken_report) = false
  /\ fst (action text_to_console (console_host broken_world)) = Normal 2.
Proof.
  assert (Hw : writeFileSync (console_host broken_world) <> Some ThrownNullish)
    by (simpl; discriminate).
  split; [reflexivity | split; [exact Hw | split; [reflexivity | split; [reflexivity |]]]].
  apply (X10_critical_error_exits_with_2 text_to_console (console_host broken_world)
           broken_report); solve [reflexivity | exact Hw].
Defined.

Lemma X11_witness :
  known_format (cli_format nowhere_to_console) = true
  /\ cli_verbose nowhere_to_console = false
  /\ fst (run_validateManifest (orchestrator_options nowhere_to_console)
                               (world (console_host sample_world)))
     = Abrupt (ThrownValue (Some "Workspace directory not found: /nowhere")
                           (Some "Error: Workspace directory not found: /nowhere"))
  /\ (fst (action nowhere_to_console (console_host sample_world)) = Normal 2
      /\ Forall (fun ev => is_user_output ev = false)
                (snd (action nowhere_to_console (console_host sample_world)))).
Proof.
  split; [reflexivity | split; [reflexivity | split; [reflexivity |]]].
  apply (X11_fatal_error_is_silent nowhere_to_console (console_host sample_world)
           (Some "Workspace directory not found: /nowhere")
           (Some "Error: Workspace directory not found: /nowhere")); reflexivity.
Defined.

(** Of the two entries of [cache.errors] the untagged one is listed, ahead
    of the failing rule: the text says 2 where the statistics say 1. *)
Lemma X12_witness :
  fst (run_validateManifest default_options diagnosed_world) = Normal diagnosed_report
  /\ loaded (manifest diagnosed_report) = true
  /\ filter shown_problem (problems diagnosed_report) = [untagged_entry; failing_result]
  /\ validationErrors (stats diagnosed_report) = 1
  /\ (filter shown_problem (problems diagnosed_report)
      = filter (fun p => has_items p && negb (diagnostic_tagged p))
               (map snd (default [] (cache_errors diagnosed_world)))
        ++ filter real_issue (engine_results default_options diagnosed_world)
      /\ length (filter shown_problem (problems diagnosed_report))
         = length (filter (fun p => has_items p && negb (diagnostic_tagged p))
                          (map snd (default [] (cache_errors diagnosed_world))))
           + validationErrors (stats diagnosed_report)
      /\ (0 < length (filter shown_problem (problems diagnosed_report)) ->
          In ((if false then plain else plain) BoldRed
                ("Found "
                 ++ show_nat (length (filter (fun p => has_items p && negb (diagnostic_tagged p))
                                             (map snd (default [] (cache_errors diagnosed_world))))
                              + validationErrors (stats diagnosed_report))
                 ++ " validation issue(s):")%string)
             (text_lines plain diagnosed_report false false))).
Proof.
  split; [reflexivity | split; [reflexivity | split; [reflexivity | split; [reflexivity |]]]].
  apply (X12_listed_problems_against_the_count plain false false default_options
           diagnosed_world diagnosed_report); reflexivity.
Defined.

Lemma X13_witness :
  fst (run_validateManifest default_options broken_world) = Normal broken_report
  /\ loaded (manifest broken_report) = false
  /\ text_lines plain broken_report false true
     = [EmptyString;
        plain Bold "DocHub Architecture Validation";
        plain Gray (repeat_string "=" 50);
        EmptyString;
        (plain Red "✗" ++ " Failed to load manifest")%string;
        plain Gray ("  Path: " ++ manifestPath_of default_options broken_world)%string;
        EmptyString;
        plain Gray (repeat_string "=" 50);
        plain RedBold "✗ Validation FAILED";
        EmptyString].
Proof.
  split; [reflexivity | split; [reflexivity |]].
  apply (X13_text_hides_the_critical_error plain default_options broken_world broken_report
           false true); reflexivity.
Defined.

Lemma X15_witness :
  known_format "JSON" = true
  /\ ((toLowerCase "JSON" = "json"
       /\ format_result plain (fun _ _ => "{}") sample_report "JSON" true false true
          = formatJSON (fun _ _ => "{}") sample_report true)
      \/ (toLowerCase "JSON" = "text"
          /\ format_result plain (fun _ _ => "{}") sample_report "JSON" true false true
             = formatText plain sample_report true false)).
Proof.
  split; [reflexivity |].
  apply (X15_accepted_format_dispatch plain (fun _ _ => "{}") sample_report "JSON" true false true).
  reflexivity.
Defined.
